(** * components.py: an LSTM with per-gate recurrent dropout over packed sequences

    A shallow embedding of [LSTMCell] and [LSTM] of [components.py].

    - Python exceptions are values of [error]; a computation that may raise
      returns a [result].
    - Objects that the code mutates (the dropout-mask fields of a cell, the
      global random generator of torch) live in an explicit state, threaded
      by the monad [M]: a raised exception keeps the mutations made so far,
      as in Python.
    - The tensor library is an interface, the class [Torch]: element type,
      element-wise arithmetic, the inner product behind [F.linear], the
      non-linearities, the Bernoulli draw and the orthogonal initialiser.
      Python floats held by the objects themselves (the dropout probability)
      are rationals. *)

From Stdlib Require Import List Arith ZArith QArith Bool Lia Lqa.
Import ListNotations.
Local Open Scope nat_scope.

Set Implicit Arguments.

(** ** Exceptions and the state-and-exception monad *)

Inductive error : Set :=
| NotImplementedError
| IndexError
| TypeError
| ValueError
| AttributeError
| AssertionError
| RuntimeError.

Inductive result (A : Type) : Type :=
| Ok (a : A)
| Err (e : error).

Arguments Ok {A} a.
Arguments Err {A} e.

Definition M (S A : Type) : Type := S -> result A * S.

Definition ret {S A} (a : A) : M S A := fun s => (Ok a, s).

Definition raise {S A} (e : error) : M S A := fun s => (Err e, s).

Definition lift {S A} (r : result A) : M S A := fun s => (r, s).

Definition bind {S A B} (m : M S A) (f : A -> M S B) : M S B :=
  fun s =>
    match m s with
    | (Ok a, s') => f a s'
    | (Err e, s') => (Err e, s')
    end.

Definition get {S} : M S S := fun s => (Ok s, s).

Definition put {S} (s : S) : M S unit := fun _ => (Ok tt, s).

Declare Scope monad_scope.
Delimit Scope monad_scope with monad.
Notation "x <- m ;; k" := (bind m (fun x => k))
  (at level 61, m at next level, right associativity) : monad_scope.
Notation "' pat <- m ;; k" := (bind m (fun x => match x with pat => k end))
  (at level 61, pat pattern, m at next level, right associativity) : monad_scope.
Notation "m ;;; k" := (bind m (fun _ => k))
  (at level 61, right associativity) : monad_scope.
Local Open Scope monad_scope.

(** The pure counterpart of [bind], for code that only raises. *)
Definition rbind {A B} (r : result A) (f : A -> result B) : result B :=
  match r with
  | Ok a => f a
  | Err e => Err e
  end.

Notation "x <-- r ;; k" := (rbind r (fun x => k))
  (at level 61, r at next level, right associativity) : monad_scope.

(** ** Python sequences *)

(** [l[start:stop]] with Python's rules: a negative bound counts from the
    end, both bounds are clamped to the sequence, an absent bound is the
    corresponding end. [-0] is [0], so [l[-0:]] is all of [l]. *)
Definition py_bound (len i : Z) : Z :=
  if (i <? 0)%Z then Z.max (i + len) 0 else Z.min i len.

Definition py_slice {A} (l : list A) (start stop : option Z) : list A :=
  let len := Z.of_nat (length l) in
  let s := match start with Some i => py_bound len i | None => 0%Z end in
  let e := match stop with Some i => py_bound len i | None => len end in
  firstn (Z.to_nat (e - s)) (skipn (Z.to_nat s) l).

(** [l[idx]] for a non-negative index. *)
Definition py_index {A} (l : list A) (idx : nat) : result A :=
  match nth_error l idx with
  | Some a => Ok a
  | None => Err IndexError
  end.

Definition map2 {A B C} (f : A -> B -> C) (a : list A) (b : list B) : list C :=
  map (fun p => f (fst p) (snd p)) (combine a b).

(** Python's truth value of a float: every non-zero number is true. *)
Definition truthy (q : Q) : bool := negb (Qeq_bool q 0).

(** ** The tensor library *)

Class Torch : Type := {
  (** the element type of tensors *)
  R : Type;
  (** a Python float as a tensor element *)
  of_float : Q -> R;
  (** the content of memory that [torch.Tensor(...)] allocates and does not
      initialise *)
  garbage : R;
  sadd : R -> R -> R;
  smul : R -> R -> R;
  sigmoid : R -> R;
  tanh : R -> R;
  (** the inner product of two rows of equal length, as the matrix product
      of [F.linear] computes it *)
  dot : list R -> list R -> R;
  (** the state of torch's global random generator *)
  rng : Type;
  (** one Bernoulli draw of probability [p] *)
  bernoulli : rng -> Q -> bool * rng;
  (** [init.orthogonal] on a freshly allocated [rows] x [cols] tensor *)
  orthogonal : rng -> nat -> nat -> result (list (list R)) * rng;
  (** it fills the tensor it is given: the shape stays *)
  orthogonal_shape : forall g rows cols m,
    fst (orthogonal g rows cols) = Ok m ->
    length m = rows /\ Forall (fun r => length r = cols) m;
  (** on a tensor of positive sizes it returns *)
  orthogonal_returns : forall g rows cols, 0 < rows -> 0 < cols ->
    exists m, fst (orthogonal g rows cols) = Ok m
}.

(** Tensors of one, two and three dimensions, by rows. *)
Abbreviation vector := (list R) (only parsing).
Abbreviation matrix := (list (list R)) (only parsing).
Abbreviation tensor3 := (list (list (list R))) (only parsing).

Section Tensors.
Context {T : Torch}.

(** [t.size(0)] *)
Definition size0 {A} (t : list A) : nat := length t.

Definition shaped (n w : nat) (t : matrix) : Prop :=
  length t = n /\ Forall (fun r => length r = w) t.

Definition same_shape (a b : matrix) : bool :=
  (length a =? length b) &&
  forallb (fun p => length (fst p) =? length (snd p)) (combine a b).

(** [a * b] and [a + b] on two tensors of the same shape *)
Definition mul2 (a b : matrix) : result matrix :=
  if same_shape a b then Ok (map2 (map2 smul) a b) else Err RuntimeError.

Definition add2 (a b : matrix) : result matrix :=
  if same_shape a b then Ok (map2 (map2 sadd) a b) else Err RuntimeError.

(** [a * q] for a Python float [q] *)
Definition scale (a : matrix) (q : Q) : matrix :=
  map (map (fun v => smul v (of_float q))) a.

Definition F_sigmoid (a : matrix) : matrix := map (map sigmoid) a.
Definition F_tanh (a : matrix) : matrix := map (map tanh) a.

(** [F.linear(input, weight, bias)]: every row of [input] against every row
    of [weight], plus the bias when there is one. *)
Definition F_linear (input weight : matrix) (bias : option vector)
  : result matrix :=
  if forallb (fun x => forallb (fun w => length w =? length x) weight) input
     && match bias with
        | Some b => length b =? length weight
        | None => true
        end
  then Ok (map (fun x =>
                  match bias with
                  | Some b => map2 (fun w bj => sadd (dot x w) bj) weight b
                  | None => map (dot x) weight
                  end) input)
  else Err RuntimeError.

(** [torch.Tensor(n).fill_(q)] and the like *)
Definition full1 (n : nat) (q : Q) : vector := repeat (of_float q) n.
Definition full2 (n w : nat) (q : Q) : matrix := repeat (full1 w q) n.
Definition full3 (d n w : nat) (q : Q) : tensor3 := repeat (full2 n w q) d.

(** A tensor slice [t[start:stop]] along the first dimension; torch has no
    tensor without rows and raises instead. *)
Definition t_slice {A} (t : list A) (start stop : option Z)
  : result (list A) :=
  match py_slice t start stop with
  | [] => Err ValueError
  | r => Ok r
  end.

(** [torch.cat(ts, 0)]: the rows of all, which must agree in width. *)
Definition cat0 (ts : list matrix) : result matrix :=
  match concat ts with
  | [] => Err RuntimeError
  | r :: rs =>
      if forallb (fun x => length x =? length r) rs
      then Ok (r :: rs) else Err RuntimeError
  end.

(** [torch.cat(ts, 1)]: row by row, on tensors with as many rows. *)
Fixpoint cat1 (ts : list matrix) : result matrix :=
  match ts with
  | [] => Err RuntimeError
  | [t] => Ok t
  | t :: rest =>
      r <-- cat1 rest ;;
      if length t =? length r then Ok (map2 (@app R) t r)
      else Err RuntimeError
  end.

(** [torch.cat(ts, 0).view(len(ts), *ts[0].size())]: the tensors stacked
    along a new first dimension, which they can be when they all have the
    shape of the first. *)
Definition stack (ts : list matrix) : result tensor3 :=
  match ts with
  | [] => Err RuntimeError
  | t :: rest =>
      if forallb (same_shape t) rest then Ok ts else Err RuntimeError
  end.

(** [torch.bernoulli] on a tensor of [n] entries that all hold [p]: one
    draw per entry, a probability outside [0, 1] is refused. *)
Fixpoint bernoulli1 (n : nat) (p : Q) : M rng vector :=
  match n with
  | 0 => ret []
  | S n' =>
      if Qle_bool 0 p && Qle_bool p 1 then
        g <- get ;;
        let (b, g') := bernoulli g p in
        put g' ;;;
        rest <- bernoulli1 n' p ;;
        ret (of_float (if b then 1 else 0) :: rest)
      else raise RuntimeError
  end.

Fixpoint replicateM {S A} (n : nat) (m : M S A) : M S (list A) :=
  match n with
  | 0 => ret []
  | S n' => a <- m ;; rest <- replicateM n' m ;; ret (a :: rest)
  end.

Definition bernoulli3 (d n w : nat) (p : Q) : M rng tensor3 :=
  replicateM d (replicateM n (bernoulli1 w p)).

End Tensors.

(** ** class LSTMCell *)

Module LSTMCell.
Section Cell.
Context {T : Torch}.

(** A dropout mask: the list of four Python floats of inference mode, or
    the sampled tensor of shape 4 x batch x features of training mode. *)
Inductive mask : Type :=
| MaskList (l : list Q)
| MaskTensor (m : tensor3).

(** What [get_mask_slice] hands to the multiplication. *)
Inductive mask_slice : Type :=
| ScalarMask (q : Q)
| TensorMask (m : matrix).

Record t : Type := mk {
  input_size : nat;
  hidden_size : nat;
  dropout : Q;
  W_i : matrix; U_i : matrix; b_i : vector;
  W_f : matrix; U_f : matrix; b_f : vector;
  W_c : matrix; U_c : matrix; b_c : vector;
  W_o : matrix; U_o : matrix; b_o : vector;
  _input_dropout_mask : option mask;
  _h_dropout_mask : option mask;
  (** [nn.Module.training] *)
  training : bool
}.

(** Assignments to one attribute. *)
Definition set_W_i (v : matrix) (c : t) : t :=
  mk (input_size c) (hidden_size c) (dropout c) v (U_i c) (b_i c) (W_f c) (U_f c) (b_f c)
     (W_c c) (U_c c) (b_c c) (W_o c) (U_o c) (b_o c)
     (_input_dropout_mask c) (_h_dropout_mask c) (training c).
Definition set_U_i (v : matrix) (c : t) : t :=
  mk (input_size c) (hidden_size c) (dropout c) (W_i c) v (b_i c) (W_f c) (U_f c) (b_f c)
     (W_c c) (U_c c) (b_c c) (W_o c) (U_o c) (b_o c)
     (_input_dropout_mask c) (_h_dropout_mask c) (training c).
Definition set_b_i (v : vector) (c : t) : t :=
  mk (input_size c) (hidden_size c) (dropout c) (W_i c) (U_i c) v (W_f c) (U_f c) (b_f c)
     (W_c c) (U_c c) (b_c c) (W_o c) (U_o c) (b_o c)
     (_input_dropout_mask c) (_h_dropout_mask c) (training c).
Definition set_W_f (v : matrix) (c : t) : t :=
  mk (input_size c) (hidden_size c) (dropout c) (W_i c) (U_i c) (b_i c) v (U_f c) (b_f c)
     (W_c c) (U_c c) (b_c c) (W_o c) (U_o c) (b_o c)
     (_input_dropout_mask c) (_h_dropout_mask c) (training c).
Definition set_U_f (v : matrix) (c : t) : t :=
  mk (input_size c) (hidden_size c) (dropout c) (W_i c) (U_i c) (b_i c) (W_f c) v (b_f c)
     (W_c c) (U_c c) (b_c c) (W_o c) (U_o c) (b_o c)
     (_input_dropout_mask c) (_h_dropout_mask c) (training c).
Definition set_b_f (v : vector) (c : t) : t :=
  mk (input_size c) (hidden_size c) (dropout c) (W_i c) (U_i c) (b_i c) (W_f c) (U_f c) v
     (W_c c) (U_c c) (b_c c) (W_o c) (U_o c) (b_o c)
     (_input_dropout_mask c) (_h_dropout_mask c) (training c).
Definition set_W_c (v : matrix) (c : t) : t :=
  mk (input_size c) (hidden_size c) (dropout c) (W_i c) (U_i c) (b_i c) (W_f c) (U_f c) (b_f c)
     v (U_c c) (b_c c) (W_o c) (U_o c) (b_o c)
     (_input_dropout_mask c) (_h_dropout_mask c) (training c).
Definition set_U_c (v : matrix) (c : t) : t :=
  mk (input_size c) (hidden_size c) (dropout c) (W_i c) (U_i c) (b_i c) (W_f c) (U_f c) (b_f c)
     (W_c c) v (b_c c) (W_o c) (U_o c) (b_o c)
     (_input_dropout_mask c) (_h_dropout_mask c) (training c).
Definition set_b_c (v : vector) (c : t) : t :=
  mk (input_size c) (hidden_size c) (dropout c) (W_i c) (U_i c) (b_i c) (W_f c) (U_f c) (b_f c)
     (W_c c) (U_c c) v (W_o c) (U_o c) (b_o c)
     (_input_dropout_mask c) (_h_dropout_mask c) (training c).
Definition set_W_o (v : matrix) (c : t) : t :=
  mk (input_size c) (hidden_size c) (dropout c) (W_i c) (U_i c) (b_i c) (W_f c) (U_f c) (b_f c)
     (W_c c) (U_c c) (b_c c) v (U_o c) (b_o c)
     (_input_dropout_mask c) (_h_dropout_mask c) (training c).
Definition set_U_o (v : matrix) (c : t) : t :=
  mk (input_size c) (hidden_size c) (dropout c) (W_i c) (U_i c) (b_i c) (W_f c) (U_f c) (b_f c)
     (W_c c) (U_c c) (b_c c) (W_o c) v (b_o c)
     (_input_dropout_mask c) (_h_dropout_mask c) (training c).
Definition set_b_o (v : vector) (c : t) : t :=
  mk (input_size c) (hidden_size c) (dropout c) (W_i c) (U_i c) (b_i c) (W_f c) (U_f c) (b_f c)
     (W_c c) (U_c c) (b_c c) (W_o c) (U_o c) v
     (_input_dropout_mask c) (_h_dropout_mask c) (training c).
Definition set_input_dropout_mask (v : option mask) (c : t) : t :=
  mk (input_size c) (hidden_size c) (dropout c) (W_i c) (U_i c) (b_i c) (W_f c) (U_f c) (b_f c)
     (W_c c) (U_c c) (b_c c) (W_o c) (U_o c) (b_o c)
     v (_h_dropout_mask c) (training c).
Definition set_h_dropout_mask (v : option mask) (c : t) : t :=
  mk (input_size c) (hidden_size c) (dropout c) (W_i c) (U_i c) (b_i c) (W_f c) (U_f c) (b_f c)
     (W_c c) (U_c c) (b_c c) (W_o c) (U_o c) (b_o c)
     (_input_dropout_mask c) v (training c).

(** A method runs on the object and on the random generator. *)
Definition world : Type := (t * rng)%type.

Definition self : M world t := fun s => (Ok (fst s), s).

Definition assign (f : t -> t) : M world unit :=
  fun s => (Ok tt, (f (fst s), snd s)).

(** A computation on the random generator alone, run in the world. *)
Definition sample {A} (m : M rng A) : M world A :=
  fun s => let (r, g) := m (snd s) in (r, (fst s, g)).

(** [init.orthogonal(w)] fills the tensor [w] it is given. *)
Definition init_orthogonal (w : matrix) : M world matrix :=
  sample (fun g => orthogonal g (length w) (length (hd [] w))).

Definition reset_parameters : M world unit :=
  c <- self ;; w <- init_orthogonal (W_i c) ;; assign (set_W_i w) ;;;
  c <- self ;; w <- init_orthogonal (U_i c) ;; assign (set_U_i w) ;;;
  c <- self ;; w <- init_orthogonal (W_f c) ;; assign (set_W_f w) ;;;
  c <- self ;; w <- init_orthogonal (U_f c) ;; assign (set_U_f w) ;;;
  c <- self ;; w <- init_orthogonal (W_c c) ;; assign (set_W_c w) ;;;
  c <- self ;; w <- init_orthogonal (U_c c) ;; assign (set_U_c w) ;;;
  c <- self ;; w <- init_orthogonal (W_o c) ;; assign (set_W_o w) ;;;
  c <- self ;; w <- init_orthogonal (U_o c) ;; assign (set_U_o w) ;;;
  c <- self ;; assign (set_b_f (full1 (length (b_f c)) 1)) ;;;
  c <- self ;; assign (set_b_i (full1 (length (b_i c)) 0)) ;;;
  c <- self ;; assign (set_b_c (full1 (length (b_c c)) 0)) ;;;
  c <- self ;; assign (set_b_o (full1 (length (b_o c)) 0)).

(** [torch.Tensor(rows, cols)] and [torch.Tensor(n)]: allocated, not yet
    initialised. *)
Definition alloc2 (rows cols : nat) : matrix :=
  repeat (repeat garbage cols) rows.
Definition alloc1 (n : nat) : vector := repeat garbage n.

Definition __init__ (input_size hidden_size : nat) (dropout : Q)
  : M rng t :=
  fun g =>
    let c := mk input_size hidden_size dropout
               (alloc2 hidden_size input_size)
               (alloc2 hidden_size hidden_size) (alloc1 hidden_size)
               (alloc2 hidden_size input_size)
               (alloc2 hidden_size hidden_size) (alloc1 hidden_size)
               (alloc2 hidden_size input_size)
               (alloc2 hidden_size hidden_size) (alloc1 hidden_size)
               (alloc2 hidden_size input_size)
               (alloc2 hidden_size hidden_size) (alloc1 hidden_size)
               None None true in
    match reset_parameters (c, g) with
    | (Ok _, (c', g')) => (Ok c', g')
    | (Err e, (_, g')) => (Err e, g')
    end.

(** The placement of the masks on the GPU changes no value and is left
    out. *)
Definition set_dropout_masks (batch_size : nat) : M world unit :=
  c <- self ;;
  if truthy (dropout c) then
    if training c then
      mi <- sample (bernoulli3 4 batch_size (input_size c) (1 - dropout c)) ;;
      assign (set_input_dropout_mask (Some (MaskTensor mi))) ;;;
      mh <- sample (bernoulli3 4 batch_size (hidden_size c) (1 - dropout c)) ;;
      assign (set_h_dropout_mask (Some (MaskTensor mh)))
    else
      let m := MaskList (repeat (1 - dropout c)%Q 4) in
      assign (set_input_dropout_mask (Some m)) ;;;
      assign (set_h_dropout_mask (Some m))
  else
    let m := MaskList (repeat 1%Q 4) in
    assign (set_input_dropout_mask (Some m)) ;;;
    assign (set_h_dropout_mask (Some m)).

(** The inner function of [forward]; [input] is the one of the enclosing
    call. A mask that is still [None] cannot be indexed. *)
Definition get_mask_slice (input : matrix) (m : option mask) (idx : nat)
  : result mask_slice :=
  match m with
  | None => Err TypeError
  | Some (MaskList l) => q <-- py_index l idx ;; Ok (ScalarMask q)
  | Some (MaskTensor m3) =>
      g <-- py_index m3 idx ;;
      r <-- t_slice g (Some (- Z.of_nat (size0 input))%Z) None ;;
      Ok (TensorMask r)
  end.

(** [x * get_mask_slice(mask, idx)] *)
Definition mul_mask (x : matrix) (s : mask_slice) : result matrix :=
  match s with
  | ScalarMask q => Ok (scale x q)
  | TensorMask m => mul2 x m
  end.

(** The body of [forward] below the mask initialisation: it reads the
    object and changes nothing. *)
Definition gates (c : t) (input h_tm1 c_tm1 : matrix)
  : result (matrix * matrix) :=
  let masked x m idx := (s <-- get_mask_slice input m idx ;; mul_mask x s) in
  x <-- masked h_tm1 (_h_dropout_mask c) 0 ;; hi_t <-- F_linear x (U_i c) None ;;
  x <-- masked h_tm1 (_h_dropout_mask c) 1 ;; hf_t <-- F_linear x (U_f c) None ;;
  x <-- masked h_tm1 (_h_dropout_mask c) 2 ;; hc_t <-- F_linear x (U_c c) None ;;
  x <-- masked h_tm1 (_h_dropout_mask c) 3 ;; ho_t <-- F_linear x (U_o c) None ;;
  x <-- masked input (_input_dropout_mask c) 0 ;;
  xi_t <-- F_linear x (W_i c) (Some (b_i c)) ;;
  x <-- masked input (_input_dropout_mask c) 1 ;;
  xf_t <-- F_linear x (W_f c) (Some (b_f c)) ;;
  x <-- masked input (_input_dropout_mask c) 2 ;;
  xc_t <-- F_linear x (W_c c) (Some (b_c c)) ;;
  x <-- masked input (_input_dropout_mask c) 3 ;;
  xo_t <-- F_linear x (W_o c) (Some (b_o c)) ;;
  a <-- add2 xi_t hi_t ;; let i_t := F_sigmoid a in
  a <-- add2 xf_t hf_t ;; let f_t := F_sigmoid a in
  fc <-- mul2 f_t c_tm1 ;;
  a <-- add2 xc_t hc_t ;; ig <-- mul2 i_t (F_tanh a) ;;
  c_t <-- add2 fc ig ;;
  a <-- add2 xo_t ho_t ;; let o_t := F_sigmoid a in
  h_t <-- mul2 o_t (F_tanh c_t) ;;
  Ok (h_t, c_t).

Definition forward (input : matrix) (hidden_state : matrix * matrix)
  : M world (matrix * matrix) :=
  let (h_tm1, c_tm1) := hidden_state in
  c <- self ;;
  match _input_dropout_mask c with
  | None => set_dropout_masks (size0 input)
  | Some _ => ret tt
  end ;;;
  c <- self ;;
  lift (gates c input h_tm1 c_tm1).

End Cell.
End LSTMCell.

(** ** torch.nn._functions.rnn

    The recurrences that [LSTM.forward] calls, as torch defines them for a
    packed sequence: [variable_recurrent_factory(batch_sizes)] gives
    [VariableRecurrent] or, with [reverse=True], [VariableRecurrentReverse];
    [StackedRNN] runs one of them per direction. They are generic in the
    state [S] that the step function [inner] works on. [__debug__] says
    whether Python executes [assert] statements. *)

Module rnn.
Section Recurrent.
Context {T : Torch}.
Variable S : Type.
Variable __debug__ : bool.

(** the pair (h, c) of an LSTM *)
Definition hidden_t : Type := (matrix * matrix)%type.

(** [inner(step_input, hidden, *weight)] *)
Definition inner_t : Type := matrix -> hidden_t -> list matrix -> M S hidden_t.

Definition py_assert (b : bool) : M S unit :=
  if __debug__ && negb b then raise AssertionError else ret tt.

Section Loops.
Variable inner : inner_t.
Variable input : matrix.
Variable weight : list matrix.

Fixpoint VariableRecurrent_loop (batch_sizes : list nat)
    (input_offset last_batch_size : nat) (hiddens : list hidden_t)
    (hidden : hidden_t) (output : list matrix)
  : M S (list hidden_t * hidden_t * list matrix) :=
  match batch_sizes with
  | [] => ret (hiddens, hidden, output)
  | batch_size :: rest =>
      step_input <- lift (t_slice input (Some (Z.of_nat input_offset))
                            (Some (Z.of_nat (input_offset + batch_size)))) ;;
      let input_offset := input_offset + batch_size in
      ' (hiddens, hidden) <-
        (if batch_size <? last_batch_size then
           let dec := Z.of_nat (last_batch_size - batch_size) in
           th <- lift (t_slice (fst hidden) (Some (- dec)%Z) None) ;;
           tc <- lift (t_slice (snd hidden) (Some (- dec)%Z) None) ;;
           kh <- lift (t_slice (fst hidden) None (Some (- dec)%Z)) ;;
           kc <- lift (t_slice (snd hidden) None (Some (- dec)%Z)) ;;
           ret (hiddens ++ [(th, tc)], (kh, kc))
         else ret (hiddens, hidden)) ;;
      hidden <- inner step_input hidden weight ;;
      VariableRecurrent_loop rest input_offset batch_size hiddens hidden
        (output ++ [fst hidden])
  end.

Definition VariableRecurrent (batch_sizes : list nat) (hidden : hidden_t)
  : M S (hidden_t * matrix) :=
  last_batch_size <- lift (py_index batch_sizes 0) ;;
  ' (hiddens, hidden, output) <-
    VariableRecurrent_loop batch_sizes 0 last_batch_size [] hidden [] ;;
  let hiddens := rev (hiddens ++ [hidden]) in
  h <- lift (cat0 (map fst hiddens)) ;;
  c <- lift (cat0 (map snd hiddens)) ;;
  first <- lift (py_index batch_sizes 0) ;;
  py_assert (size0 h =? first) ;;;
  output <- lift (cat0 output) ;;
  ret ((h, c), output).

Fixpoint VariableRecurrentReverse_loop (reversed_batch_sizes : list nat)
    (input_offset : Z) (last_batch_size : nat)
    (initial_hidden hidden : hidden_t) (output : list matrix)
  : M S (hidden_t * list matrix) :=
  match reversed_batch_sizes with
  | [] => ret (hidden, output)
  | batch_size :: rest =>
      hidden <-
        (if last_batch_size <? batch_size then
           let lo := Some (Z.of_nat last_batch_size) in
           let hi := Some (Z.of_nat batch_size) in
           ih <- lift (t_slice (fst initial_hidden) lo hi) ;;
           h <- lift (cat0 [fst hidden; ih]) ;;
           ic <- lift (t_slice (snd initial_hidden) lo hi) ;;
           c <- lift (cat0 [snd hidden; ic]) ;;
           ret (h, c)
         else ret hidden) ;;
      step_input <- lift (t_slice input
                            (Some (input_offset - Z.of_nat batch_size)%Z)
                            (Some input_offset)) ;;
      let input_offset := (input_offset - Z.of_nat batch_size)%Z in
      hidden <- inner step_input hidden weight ;;
      VariableRecurrentReverse_loop rest input_offset batch_size
        initial_hidden hidden (output ++ [fst hidden])
  end.

Definition VariableRecurrentReverse (batch_sizes : list nat)
    (hidden : hidden_t) : M S (hidden_t * matrix) :=
  let input_offset := Z.of_nat (size0 input) in
  last_batch_size <- lift (py_index (rev batch_sizes) 0) ;;
  let initial_hidden := hidden in
  h <- lift (t_slice (fst hidden) None (Some (Z.of_nat last_batch_size))) ;;
  c <- lift (t_slice (snd hidden) None (Some (Z.of_nat last_batch_size))) ;;
  ' (hidden, output) <-
    VariableRecurrentReverse_loop (rev batch_sizes) input_offset
      last_batch_size initial_hidden (h, c) [] ;;
  output <- lift (cat0 (rev output)) ;;
  ret (hidden, output).
End Loops.

(** A direction of the layer: what [rec_factory(inner, reverse)] returns,
    a function of [(input, hidden, weight)]. *)
Definition direction_t : Type :=
  matrix -> hidden_t -> list matrix -> M S (hidden_t * matrix).

Definition variable_recurrent_factory (batch_sizes : list nat)
    (inner : inner_t) (reverse : bool) : direction_t :=
  fun input hidden weight =>
    if reverse then VariableRecurrentReverse inner input weight batch_sizes hidden
    else VariableRecurrent inner input weight batch_sizes hidden.

(** The loop [for j, inner in enumerate(inners)] of the only layer. *)
Fixpoint StackedRNN_directions (inners : list direction_t) (j : nat)
    (input : matrix) (hidden : list hidden_t) (weight : list (list matrix))
    (next_hidden : list hidden_t) (all_output : list matrix)
  : M S (list hidden_t * list matrix) :=
  match inners with
  | [] => ret (next_hidden, all_output)
  | inner :: rest =>
      hl <- lift (py_index hidden j) ;;
      wl <- lift (py_index weight j) ;;
      ' (hy, output) <- inner input hl wl ;;
      StackedRNN_directions rest (j + 1) input hidden weight
        (next_hidden ++ [hy]) (all_output ++ [output])
  end.

(** [StackedRNN(inners, num_layers=1, lstm=True, dropout=0., train=...)]:
    with one layer no dropout is applied between layers, whatever
    [train]. *)
Definition StackedRNN (inners : list direction_t) (input : matrix)
    (hidden : tensor3 * tensor3) (weight : list (list matrix))
  : M S ((tensor3 * tensor3) * matrix) :=
  let total_layers := 1 * length inners in
  py_assert (length weight =? total_layers) ;;;
  let hidden := combine (fst hidden) (snd hidden) in
  ' (next_hidden, all_output) <-
    StackedRNN_directions inners 0 input hidden weight [] [] ;;
  input <- lift (cat1 all_output) ;;
  next_h <- lift (stack (map fst next_hidden)) ;;
  next_c <- lift (stack (map snd next_hidden)) ;;
  ret ((next_h, next_c), input).

End Recurrent.
End rnn.

(** ** class LSTM *)

Module LSTM.
Section Layer.
Context {T : Torch}.
Variable __debug__ : bool.

(** [torch.nn.utils.rnn.PackedSequence]: the rows of all time steps and
    the number of rows of each step. *)
Record PackedSequence : Type := mkPacked {
  data : matrix;
  batch_sizes : list nat
}.

(** What a caller may pass as [input]: a packed sequence or a padded
    tensor. *)
Inductive input_t : Type :=
| Packed (p : PackedSequence)
| Padded (x : tensor3).

(** [lstm_cells] holds the cell objects; the attributes [cell] and
    [cell_reverse] that [add_module] registers name its elements 0 and 1,
    the same objects. *)
Record t : Type := mk {
  input_size : nat;
  hidden_size : nat;
  bidirectional : bool;
  dropout : Q;
  lstm_cells : list LSTMCell.t;
  training : bool
}.

Definition world : Type := (t * rng)%type.

Definition self : M world t := fun s => (Ok (fst s), s).

Definition set_cell (k : nat) (c : LSTMCell.t) (l : t) : t :=
  mk (input_size l) (hidden_size l) (bidirectional l) (dropout l)
     (firstn k (lstm_cells l) ++ c :: skipn (k + 1) (lstm_cells l))
     (training l).

(** A method of the cell object number [k], run on the layer's state. *)
Definition on_cell {A} (k : nat) (m : M LSTMCell.world A) : M world A :=
  fun s =>
    match nth_error (lstm_cells (fst s)) k with
    | None => (Err AttributeError, s)
    | Some c =>
        let '(r, (c', g')) := m (c, snd s) in
        (r, (set_cell k c' (fst s), g'))
    end.

Fixpoint construct_cells (n : nat) (input_size hidden_size : nat)
    (dropout : Q) : M rng (list LSTMCell.t) :=
  match n with
  | 0 => ret []
  | S n' =>
      c <- LSTMCell.__init__ input_size hidden_size dropout ;;
      rest <- construct_cells n' input_size hidden_size dropout ;;
      ret (c :: rest)
  end.

Definition __init__ (input_size hidden_size : nat) (bidirectional : bool)
    (dropout : Q) : M rng t :=
  let num_directions := if bidirectional then 2 else 1 in
  cells <- construct_cells num_directions input_size hidden_size dropout ;;
  ret (mk input_size hidden_size bidirectional dropout cells true).

(** [for cell in self.lstm_cells: cell.set_dropout_masks(max_batch_size)],
    from the cell number [k] on. *)
Fixpoint set_all_dropout_masks (n k : nat) (max_batch_size : nat)
  : M world unit :=
  match n with
  | 0 => ret tt
  | S n' =>
      on_cell k (LSTMCell.set_dropout_masks max_batch_size) ;;;
      set_all_dropout_masks n' (k + 1) max_batch_size
  end.

(** [lambda x, h: self.cell(x, h)] and its twin for [cell_reverse]; a
    lambda of two parameters takes no further argument. *)
Definition cell_lambda (k : nat) : rnn.inner_t world :=
  fun x h weight =>
    match weight with
    | [] => on_cell k (LSTMCell.forward x h)
    | _ :: _ => raise TypeError
    end.

Definition forward (input : input_t) (hidden_state : option (tensor3 * tensor3))
  : M world (PackedSequence * (tensor3 * tensor3)) :=
  match input with
  | Padded _ => raise NotImplementedError
  | Packed p =>
      let input := data p in
      let batch_sizes := batch_sizes p in
      max_batch_size <- lift (py_index batch_sizes 0) ;;
      l <- self ;;
      set_all_dropout_masks (length (lstm_cells l)) 0 max_batch_size ;;;
      l <- self ;;
      let hidden_state :=
        match hidden_state with
        | None =>
            let num_directions := if bidirectional l then 2 else 1 in
            let hx := full3 num_directions max_batch_size (hidden_size l) 0 in
            (hx, hx)
        | Some hs => hs
        end in
      let rec_factory := rnn.variable_recurrent_factory __debug__ batch_sizes in
      let layer :=
        if bidirectional l
        then [rec_factory (cell_lambda 0) false; rec_factory (cell_lambda 1) true]
        else [rec_factory (cell_lambda 0) false] in
      let func := rnn.StackedRNN __debug__ layer in
      ' (next_hidden, output) <- func input hidden_state [[]; []] ;;
      ret (mkPacked output batch_sizes, next_hidden)
  end.

End Layer.
End LSTM.

(** ** A tensor library that computes

    Tensor elements are the expressions that the program builds; the random
    generator is a linear congruential one; the orthogonal initialiser
    writes the leading rows of an identity matrix. Every run of the model on
    it evaluates. *)

Module Symbolic.

Inductive exp : Type :=
| Float (q : Q)
| Uninitialised
| Add (a b : exp)
| Mul (a b : exp)
| Sigmoid (a : exp)
| Tanh (a : exp).

Definition inner_product (x w : list exp) : exp :=
  fold_left (fun acc p => Add acc (Mul (fst p) (snd p))) (combine x w) (Float 0).

Definition next (g : N) : N := ((1103515245 * g + 12345) mod 2147483648)%N.

(** The draw compares [next g / 2^31] with [p]. *)
Definition draw (g : N) (p : Q) : bool * N :=
  let g' := next g in
  ((Z.of_N g' * Zpos (Qden p) <? Qnum p * 2147483648)%Z, g').

Definition unit_row (cols i : nat) : list exp :=
  map (fun j => Float (if i =? j then 1 else 0)) (seq 0 cols).

Definition leading_identity (g : N) (rows cols : nat) : result (list (list exp)) * N :=
  match rows, cols with
  | 0, _ | _, 0 => (Err ValueError, g)
  | _, _ => (Ok (map (unit_row cols) (seq 0 rows)), next g)
  end.

#[export] Instance torch : Torch.
Proof.
  refine (@Build_Torch exp Float Uninitialised Add Mul Sigmoid Tanh
            inner_product N draw leading_identity _ _).
  - intros g rows cols m E.
    destruct rows; [discriminate E |]. destruct cols; [discriminate E |].
    change (Ok (map (unit_row (S cols)) (seq 0 (S rows))) = Ok m) in E.
    injection E as <-. split.
    + cbn [length]. rewrite length_map, length_seq. reflexivity.
    + apply Forall_forall. intros r Hin.
      assert (Hrow : exists i, unit_row (S cols) i = r).
      { destruct Hin as [<- | Hin]; [now exists 0 |].
        apply in_map_iff in Hin. destruct Hin as [i [<- _]]. now exists i. }
      destruct Hrow as [i <-].
      unfold unit_row. rewrite length_map, length_seq. reflexivity.
  - intros g rows cols Hr Hc.
    destruct rows; [inversion Hr |]. destruct cols; [inversion Hc |].
    eexists. reflexivity.
Defined.

End Symbolic.


(** ** The step of the cell, element by element

    The recurrence as the specification words it: every entry of the new
    cell state and of the new hidden state as a formula of the entries of
    the arguments. *)

Module CellSpec.
Section Spec.
Context {T : Torch}.
Import LSTMCell.

(** The tensor with [n] rows of [w] entries whose entry (b, j) is
    [f b j]. *)
Definition tabulate (n w : nat) (f : nat -> nat -> R) : matrix :=
  map (fun b => map (f b) (seq 0 w)) (seq 0 n).

Definition entry (t : matrix) (b j : nat) : R := nth j (nth b t []) garbage.

(** The weights have the shapes that [__init__] allocates. *)
Definition well_shaped (c : t) : Prop :=
  let I := input_size c in
  let H := hidden_size c in
  (shaped H I (W_i c) /\ shaped H H (U_i c) /\ length (b_i c) = H) /\
  (shaped H I (W_f c) /\ shaped H H (U_f c) /\ length (b_f c) = H) /\
  (shaped H I (W_c c) /\ shaped H H (U_c c) /\ length (b_c c) = H) /\
  (shaped H I (W_o c) /\ shaped H H (U_o c) /\ length (b_o c) = H).

(** A mask can serve a step of [n] rows of [w] features: four floats, or
    four tensors of at least [n] rows of [w] entries. *)
Definition mask_fits (m : mask) (n w : nat) : Prop :=
  match m with
  | MaskList l => length l = 4
  | MaskTensor m3 =>
      length m3 = 4 /\
      forall g, g < 4 -> n <= length (nth g m3 []) /\
                         shaped (length (nth g m3 [])) w (nth g m3 [])
  end.


(** The cell [c] with its two mask attributes assigned. *)
Definition with_masks (mi mh : mask) (c : t) : t :=
  set_h_dropout_mask (Some mh) (set_input_dropout_mask (Some mi) c).

(** Row [b] of a step of [n] rows under the mask of gate [g]: scaled by
    the float of the gate, or multiplied entry by entry with row [b] of
    the last [n] rows of the gate's mask. *)
Definition masked_row (m : mask) (g n b : nat) (row : vector) : vector :=
  match m with
  | MaskList l => map (fun v => smul v (of_float (nth g l 0%Q))) row
  | MaskTensor m3 =>
      let gm := nth g m3 [] in
      map2 smul row (nth (length gm - n + b) gm [])
  end.

Section Step.
Variable c : t.
Variables mi mh : mask.
Variables input h_prev c_prev : matrix.

(** x_g: the masked input projected by W_g, plus the bias b_g *)
Definition x_gate (g : nat) (W : matrix) (bias : vector) (b j : nat) : R :=
  sadd (dot (masked_row mi g (length input) b (nth b input [])) (nth j W []))
       (nth j bias garbage).

(** h_g: the masked previous hidden state projected by U_g, no bias *)
Definition h_gate (g : nat) (U : matrix) (b j : nat) : R :=
  dot (masked_row mh g (length input) b (nth b h_prev [])) (nth j U []).

Definition pre_i b j := sadd (x_gate 0 (W_i c) (b_i c) b j) (h_gate 0 (U_i c) b j).
Definition pre_f b j := sadd (x_gate 1 (W_f c) (b_f c) b j) (h_gate 1 (U_f c) b j).
Definition pre_c b j := sadd (x_gate 2 (W_c c) (b_c c) b j) (h_gate 2 (U_c c) b j).
Definition pre_o b j := sadd (x_gate 3 (W_o c) (b_o c) b j) (h_gate 3 (U_o c) b j).

Definition cell_next (b j : nat) : R :=
  sadd (smul (sigmoid (pre_f b j)) (entry c_prev b j))
       (smul (sigmoid (pre_i b j)) (tanh (pre_c b j))).

Definition hidden_next (b j : nat) : R :=
  smul (sigmoid (pre_o b j)) (tanh (cell_next b j)).
End Step.

End Spec.
End CellSpec.

(** ** Concrete objects

    Cells and layers on the computing tensor library, for the runs that the
    properties below are checked on. *)

Module Examples.
Import Symbolic.

Definition blank_cell : LSTMCell.t :=
  LSTMCell.mk 0 0 0 [] [] [] [] [] [] [] [] [] [] [] [] None None true.

(** [LSTMCell(2, 2, dropout=0.5)], just constructed *)
Definition fresh_cell : LSTMCell.t :=
  Eval vm_compute in
    match fst (LSTMCell.__init__ 2 2 (1 # 2) 7%N) with
    | Ok c => c
    | Err _ => blank_cell
    end.

(** the same cell after [set_dropout_masks(2)] in training mode *)
Definition trained_cell : LSTMCell.t :=
  Eval vm_compute in fst (snd (LSTMCell.set_dropout_masks 2 (fresh_cell, 3%N))).

Definition sampled_input_mask : LSTMCell.mask :=
  Eval vm_compute in
    match LSTMCell._input_dropout_mask trained_cell with
    | Some m => m
    | None => LSTMCell.MaskList []
    end.

Definition sampled_h_mask : LSTMCell.mask :=
  Eval vm_compute in
    match LSTMCell._h_dropout_mask trained_cell with
    | Some m => m
    | None => LSTMCell.MaskList []
    end.

(** the same cell after [eval()] *)
Definition eval_cell : LSTMCell.t :=
  LSTMCell.mk 2 2 (1 # 2)
    (LSTMCell.W_i fresh_cell) (LSTMCell.U_i fresh_cell) (LSTMCell.b_i fresh_cell)
    (LSTMCell.W_f fresh_cell) (LSTMCell.U_f fresh_cell) (LSTMCell.b_f fresh_cell)
    (LSTMCell.W_c fresh_cell) (LSTMCell.U_c fresh_cell) (LSTMCell.b_c fresh_cell)
    (LSTMCell.W_o fresh_cell) (LSTMCell.U_o fresh_cell) (LSTMCell.b_o fresh_cell)
    None None false.

(** a cell without dropout, in inference mode *)
Definition plain_cell : LSTMCell.t :=
  LSTMCell.mk 2 2 0
    (LSTMCell.W_i fresh_cell) (LSTMCell.U_i fresh_cell) (LSTMCell.b_i fresh_cell)
    (LSTMCell.W_f fresh_cell) (LSTMCell.U_f fresh_cell) (LSTMCell.b_f fresh_cell)
    (LSTMCell.W_c fresh_cell) (LSTMCell.U_c fresh_cell) (LSTMCell.b_c fresh_cell)
    (LSTMCell.W_o fresh_cell) (LSTMCell.U_o fresh_cell) (LSTMCell.b_o fresh_cell)
    None None false.

(** two rows of two features *)
Definition x2 : list (list (@R torch)) := [[Float 1; Float 2]; [Float 3; Float 4]].
Definition h2 : list (list (@R torch)) := [[Float 5; Float 6]; [Float 7; Float 8]].
Definition c2 : list (list (@R torch)) := [[Float 9; Float 10]; [Float 11; Float 12]].

(** one row *)
Definition x1 : list (list (@R torch)) := [[Float 1; Float 2]].
Definition h1 : list (list (@R torch)) := [[Float 5; Float 6]].
Definition c1 : list (list (@R torch)) := [[Float 9; Float 10]].

(** The rows of [sampled_input_mask] for gate i: one per sample. *)
Definition gate_i_rows : list (list (@R torch)) :=
  [[Float 0; Float 1]; [Float 1; Float 1]].

(** The last of them, the row of sample 1. *)
Definition gate_i_last_row : list (list (@R torch)) := [[Float 1; Float 1]].

(** A packed batch of two sequences, of lengths 2 and 1: two rows for the
    first time step, one for the second. *)
Definition packed3 : LSTM.PackedSequence :=
  LSTM.mkPacked
    [[Float 1; Float 2]; [Float 3; Float 4]; [Float 5; Float 6]] [2; 1].

(** What a recurrence over [packed3] from the hidden state [c2] passes to
    its step function: at the first step the two rows of the input and
    both rows of the hidden state, at the second the third row of the
    input and the leading row of the hidden state, sample 0. *)
Definition steps_of_packed3
  : list (list (list (@R torch)) * list (list (@R torch))) :=
  [([[Float 1; Float 2]; [Float 3; Float 4]],
    [[Float 9; Float 10]; [Float 11; Float 12]]);
   ([[Float 5; Float 6]], [[Float 9; Float 10]])].

Definition blank_layer : LSTM.t := LSTM.mk 0 0 false 0 [] true.

(** [LSTM(2, 2, bidirectional=True, dropout=0.5)] and its unidirectional
    twin, just constructed *)
Definition bi_layer : LSTM.t :=
  Eval vm_compute in
    match fst (LSTM.__init__ 2 2 true (1 # 2) 7%N) with
    | Ok l => l
    | Err _ => blank_layer
    end.

Definition uni_layer : LSTM.t :=
  Eval vm_compute in
    match fst (LSTM.__init__ 2 2 false (1 # 2) 7%N) with
    | Ok l => l
    | Err _ => blank_layer
    end.

Definition blank_output
  : LSTM.PackedSequence * (list (list (list exp)) * list (list (list exp))) :=
  (LSTM.mkPacked [] [], ([], [])).

(** what [forward] returns on them, the second with assertions off *)
Definition bi_output
  : LSTM.PackedSequence * (list (list (list exp)) * list (list (list exp))) :=
  Eval vm_compute in
    match fst (LSTM.forward true (LSTM.Packed packed3) None (bi_layer, 3%N)) with
    | Ok r => r
    | Err _ => blank_output
    end.


(** a bidirectional layer without dropout in inference mode, and the same
    layer with the masks that an earlier call in another mode left *)
Definition plain_layer : LSTM.t :=
  LSTM.mk 2 2 true 0 [plain_cell; plain_cell] false.

Definition stale_layer : LSTM.t :=
  LSTM.mk 2 2 true 0
    [CellSpec.with_masks sampled_input_mask sampled_h_mask plain_cell;
     CellSpec.with_masks (LSTMCell.MaskList (repeat (1 # 2) 4))
       (LSTMCell.MaskList (repeat (1 # 2) 4)) plain_cell]
    false.

End Examples.

(** ** Notions that the properties are stated with *)

Module Notions.
Section Notions.
Context {T : Torch}.



(** Row [j] of a step meets the row of the gate mask [gm] that sample [j]
    of the batch met when all of the batch was active: the samples of a
    packed batch that are still active are its leading ones, in the order
    of the batch. *)
Definition keeps_mask_identity (gm slice : list (list R)) : Prop :=
  forall j, j < length slice -> nth_error slice j = nth_error gm j.

(** A step function that computes nothing and records what it is called
    with: the rows of the input and the rows of the hidden state. *)
Definition probe : rnn.inner_t (list (list (list R) * list (list R))) :=
  fun x h _ => fun log => (Ok h, log ++ [(x, fst h)]).

(** The parameters and the configuration of a cell: the cell without
    what [set_dropout_masks] assigns. *)
Definition erase_masks (c : LSTMCell.t) : LSTMCell.t :=
  LSTMCell.set_h_dropout_mask None (LSTMCell.set_input_dropout_mask None c).

Definition with_cells (cells : list LSTMCell.t) (l : LSTM.t) : LSTM.t :=
  LSTM.mk (LSTM.input_size l) (LSTM.hidden_size l) (LSTM.bidirectional l)
    (LSTM.dropout l) cells (LSTM.training l).

(** The weight state of a layer: everything but the masks of its cells. *)
Definition weight_state (l : LSTM.t) : LSTM.t :=
  with_cells (map erase_masks (LSTM.lstm_cells l)) l.

(** The masks of a cell without dropout: the scalar 1.0 for each gate. *)
Definition unit_masks (c : LSTMCell.t) : LSTMCell.t :=
  CellSpec.with_masks (LSTMCell.MaskList (repeat 1%Q 4))
    (LSTMCell.MaskList (repeat 1%Q 4)) c.

(** The output projections of the cells of a layer have as many rows as
    the layer has hidden units, as [LSTM.__init__] builds them. *)
Definition output_projections_sized (l : LSTM.t) : Prop :=
  Forall (fun c => length (LSTMCell.W_o c) = LSTM.hidden_size l)
    (LSTM.lstm_cells l).

(** All rows of a tensor have [w] entries. *)
Definition row_width (w : nat) (t : list (list R)) : Prop :=
  Forall (fun r => length r = w) t.


End Notions.
End Notions.

(** ** Notions of the reasoning on the monad *)

Module Logic.
Section Logic.
Context {T : Torch}.

(** [m] keeps the invariant [I], raising or not, and what it returns
    satisfies [Q]. *)
Definition hoare {S A} (I : S -> Prop) (m : M S A) (Q : A -> Prop) : Prop :=
  forall s, I s -> I (snd (m s)) /\ forall a, fst (m s) = Ok a -> Q a.

(** On the object [l] the computation [m] changes nothing and returns the
    same whatever the second component of the state is. *)
Definition frame {L G A} (l : L) (m : M (L * G) A) : Prop :=
  exists r, forall g, m (l, g) = (r, (l, g)).



Definition step_frame {L G} (l : L) (inner : rnn.inner_t (L * G)) : Prop :=
  forall x h weight, frame l (inner x h weight).

Definition direction_frame {L G} (l : L) (d : rnn.direction_t (L * G))
  : Prop :=
  forall x h weight, frame l (d x h weight).

(** The invariant of a call of the layer: the layer in the state has the
    weight state of the layer [l0] the call started on. *)
Definition keeps_weights (l0 : LSTM.t) (s : LSTM.world) : Prop :=
  Notions.weight_state (fst s) = Notions.weight_state l0.

(** The number of entries of each row. *)
Definition widths (t : list (list R)) : list nat := map (@length R) t.

End Logic.
End Logic.

(** ** Notions of further properties *)

Module Properties.
Section Properties.
Context {T : Torch}.

(** An entry of a sampled mask: 0.0 or 1.0. *)
Definition binary (v : R) : Prop := v = of_float 0 \/ v = of_float 1.

(** A mask sampled in training mode for [n] rows of [w] features: four
    tensors of that shape with entries 0.0 or 1.0. *)
Definition sampled_mask (m : LSTMCell.mask) (n w : nat) : Prop :=
  match m with
  | LSTMCell.MaskList _ => False
  | LSTMCell.MaskTensor m3 =>
      length m3 = 4 /\
      Forall (fun gm => shaped n w gm /\ Forall (Forall binary) gm) m3
  end.

(** The cell has masks: [forward] will not initialise them. *)
Definition has_masks (c : LSTMCell.t) : Prop :=
  LSTMCell._input_dropout_mask c <> None.

(** The step function keeps the invariant and returns as many rows as it
    is given. *)
Definition step_rows {S} (I : S -> Prop) (inner : rnn.inner_t S) : Prop :=
  forall x h weight,
    Logic.hoare I (inner x h weight) (fun h' => length (fst h') = length x).

(** A direction of a layer over [batch_sizes] keeps the invariant and, on
    an input that has one row per entry of the batch at every step,
    returns as many rows as it is given. *)
Definition direction_rows {S} (I : S -> Prop) (batch_sizes : list nat)
    (d : rnn.direction_t S) : Prop :=
  forall x h weight,
    Logic.hoare I (d x h weight)
      (fun r => list_sum batch_sizes = length x ->
                length (snd r) = length x).

(** What [LSTM.__init__] makes of each cell. *)
Definition constructed_cell (input_size hidden_size : nat) (dropout : Q)
    (c : LSTMCell.t) : Prop :=
  CellSpec.well_shaped c /\
  LSTMCell.input_size c = input_size /\
  LSTMCell.hidden_size c = hidden_size /\
  LSTMCell.dropout c = dropout /\
  LSTMCell.training c = true /\
  LSTMCell._input_dropout_mask c = None /\
  LSTMCell._h_dropout_mask c = None /\
  LSTMCell.b_f c = repeat (of_float 1) hidden_size /\
  LSTMCell.b_i c = repeat (of_float 0) hidden_size /\
  LSTMCell.b_c c = repeat (of_float 0) hidden_size /\
  LSTMCell.b_o c = repeat (of_float 0) hidden_size.

End Properties.
End Properties.

(** * Properties *)

(** ** Lists, slices and tensors *)

Section ListFacts.
Context {A B C : Type}.

Lemma length_map2 (f : A -> B -> C) a b :
  length (map2 f a b) = Nat.min (length a) (length b).
Proof. unfold map2. now rewrite length_map, length_combine. Qed.

Lemma nth_combine_lt (a : list A) (b : list B) i da db :
  i < length a -> i < length b ->
  nth i (combine a b) (da, db) = (nth i a da, nth i b db).
Proof.
  revert b i. induction a as [| x a IH]; intros [| y b] [| i] Ha Hb;
    simpl in *; try lia; [reflexivity |].
  apply IH; lia.
Qed.

Lemma nth_map2 (f : A -> B -> C) a b i da db dc :
  i < length a -> i < length b ->
  nth i (map2 f a b) dc = f (nth i a da) (nth i b db).
Proof.
  intros Ha Hb. unfold map2.
  rewrite (nth_indep _ dc (f da db)) by (rewrite length_map, length_combine; lia).
  change (f da db) with ((fun p => f (fst p) (snd p)) (da, db)).
  now rewrite map_nth, nth_combine_lt by lia.
Qed.

Lemma nth_map_seq (f : nat -> C) n i d :
  i < n -> nth i (map f (seq 0 n)) d = f i.
Proof.
  intros Hi.
  rewrite (nth_indep _ _ (f 0)) by (rewrite length_map, length_seq; lia).
  now rewrite map_nth, seq_nth.
Qed.

Lemma map2_tabulate (f : A -> B -> C) a b n da db :
  length a = n -> length b = n ->
  map2 f a b = map (fun i => f (nth i a da) (nth i b db)) (seq 0 n).
Proof.
  intros Ha Hb.
  apply (nth_ext _ _ (f da db) (f da db)).
  - rewrite length_map2, length_map, length_seq. lia.
  - intros i Hi. rewrite length_map2 in Hi.
    rewrite (nth_map2 f a b da db) by lia.
    now rewrite nth_map_seq by lia.
Qed.

Lemma map_tabulate (f : A -> C) (a : list A) n da :
  length a = n -> map f a = map (fun i => f (nth i a da)) (seq 0 n).
Proof.
  intros Ha.
  apply (nth_ext _ _ (f da) (f da)).
  - now rewrite !length_map, length_seq.
  - intros i Hi. rewrite length_map in Hi.
    rewrite map_nth. now rewrite nth_map_seq by lia.
Qed.

Lemma map_seq_ext (f g : nat -> C) n :
  (forall i, i < n -> f i = g i) -> map f (seq 0 n) = map g (seq 0 n).
Proof.
  intros H. apply map_ext_in. intros i Hi. apply in_seq in Hi. apply H. lia.
Qed.

End ListFacts.

Section SliceFacts.
Context {A : Type}.

(** [l[-n:]] for 0 < n <= len(l): the last [n] elements. *)
Lemma py_slice_last (l : list A) n :
  0 < n -> n <= length l ->
  py_slice l (Some (- Z.of_nat n)%Z) None = skipn (length l - n) l.
Proof.
  intros Hn Hl. unfold py_slice, py_bound.
  assert (H0 : (- Z.of_nat n <? 0)%Z = true) by (apply Z.ltb_lt; lia).
  rewrite H0.
  replace (Z.to_nat (Z.max (- Z.of_nat n + Z.of_nat (length l)) 0))
    with (length l - n) by lia.
  apply firstn_all2. rewrite length_skipn. lia.
Qed.

(** [l[-0:]] is [l[0:]]: everything. *)
Lemma py_slice_minus_zero (l : list A) :
  py_slice l (Some (- Z.of_nat 0)%Z) None = l.
Proof.
  unfold py_slice, py_bound. change (- Z.of_nat 0)%Z with 0%Z.
  change (0 <? 0)%Z with false. cbv iota.
  replace (Z.min 0 (Z.of_nat (length l))) with 0%Z by lia.
  replace (Z.to_nat (Z.of_nat (length l) - 0)) with (length l) by lia.
  apply firstn_all.
Qed.

(** [l[:-d]] for 0 < d <= len(l): all but the last [d] elements. *)
Lemma py_slice_drop_last (l : list A) d :
  0 < d -> d <= length l ->
  py_slice l None (Some (- Z.of_nat d)%Z) = firstn (length l - d) l.
Proof.
  intros Hd Hl. unfold py_slice, py_bound.
  assert (H0 : (- Z.of_nat d <? 0)%Z = true) by (apply Z.ltb_lt; lia).
  rewrite H0. simpl skipn.
  f_equal. lia.
Qed.
End SliceFacts.

Section TensorFacts.
Context {T : Torch}.
Import CellSpec.

Lemma shaped_tabulate n w f : shaped n w (tabulate n w f).
Proof.
  split.
  - unfold tabulate. now rewrite length_map, length_seq.
  - apply Forall_forall. intros r Hin. apply in_map_iff in Hin.
    destruct Hin as [b [<- _]]. now rewrite length_map, length_seq.
Qed.

Lemma entry_tabulate n w f b j :
  b < n -> j < w -> entry (tabulate n w f) b j = f b j.
Proof.
  intros Hb Hj. unfold entry, tabulate.
  rewrite nth_map_seq by assumption. now rewrite nth_map_seq.
Qed.

Lemma shaped_row n w (t : matrix) b :
  shaped n w t -> b < n -> length (nth b t []) = w.
Proof.
  intros [Hn Hw] Hb. rewrite Forall_forall in Hw. apply Hw, nth_In. lia.
Qed.

Lemma tabulate_entries n w (t : matrix) :
  shaped n w t -> t = tabulate n w (entry t).
Proof.
  intros Hs. unfold tabulate.
  rewrite <- (map_id t) at 1.
  rewrite (map_tabulate (fun r => r) t [] (proj1 Hs)).
  apply map_seq_ext. intros b Hb.
  rewrite <- (map_id (nth b t [])) at 1.
  rewrite (map_tabulate (fun v => v) (nth b t []) garbage (shaped_row Hs Hb)).
  reflexivity.
Qed.

Lemma tabulate_ext n w f g :
  (forall b j, b < n -> j < w -> f b j = g b j) ->
  tabulate n w f = tabulate n w g.
Proof.
  intros H. apply map_seq_ext. intros b Hb.
  apply map_seq_ext. intros j Hj. now apply H.
Qed.

Lemma same_shape_shaped n w a b :
  shaped n w a -> shaped n w b -> same_shape a b = true.
Proof.
  intros [Ha Wa] [Hb Wb]. unfold same_shape.
  apply andb_true_iff. split; [apply Nat.eqb_eq; lia |].
  apply forallb_forall. intros [x y] Hin. simpl.
  rewrite Forall_forall in Wa, Wb.
  apply Nat.eqb_eq.
  rewrite (Wa x (in_combine_l _ _ _ _ Hin)).
  now rewrite (Wb y (in_combine_r _ _ _ _ Hin)).
Qed.

Lemma zip_tabulate (op : R -> R -> R) n w f g :
  map2 (map2 op) (tabulate n w f) (tabulate n w g)
  = tabulate n w (fun b j => op (f b j) (g b j)).
Proof.
  destruct (shaped_tabulate n w f) as [Hf _].
  destruct (shaped_tabulate n w g) as [Hg _].
  rewrite (map2_tabulate (map2 op) _ _ [] [] Hf Hg).
  apply map_seq_ext. intros b Hb.
  unfold tabulate at 1 2. rewrite !nth_map_seq by assumption.
  rewrite (map2_tabulate op _ _ garbage garbage (n := w))
    by now rewrite length_map, length_seq.
  apply map_seq_ext. intros j Hj. now rewrite !nth_map_seq.
Qed.

Lemma add2_tabulate n w f g :
  add2 (tabulate n w f) (tabulate n w g)
  = Ok (tabulate n w (fun b j => sadd (f b j) (g b j))).
Proof.
  unfold add2.
  rewrite (same_shape_shaped (shaped_tabulate n w f) (shaped_tabulate n w g)).
  now rewrite zip_tabulate.
Qed.

Lemma mul2_tabulate n w f g :
  mul2 (tabulate n w f) (tabulate n w g)
  = Ok (tabulate n w (fun b j => smul (f b j) (g b j))).
Proof.
  unfold mul2.
  rewrite (same_shape_shaped (shaped_tabulate n w f) (shaped_tabulate n w g)).
  now rewrite zip_tabulate.
Qed.

Lemma mul2_tabulate_entries n w f (t : matrix) :
  shaped n w t ->
  mul2 (tabulate n w f) t
  = Ok (tabulate n w (fun b j => smul (f b j) (entry t b j))).
Proof.
  intros Ht. rewrite (tabulate_entries Ht) at 1. apply mul2_tabulate.
Qed.

Lemma map_tabulate2 (op : R -> R) n w f :
  map (map op) (tabulate n w f) = tabulate n w (fun b j => op (f b j)).
Proof.
  unfold tabulate. rewrite map_map. apply map_ext. intros b.
  now rewrite map_map.
Qed.

(** [F.linear] on [n] rows of [w] entries and a weight of [h] rows of [w]
    entries. *)
Lemma F_linear_tabulate n w h (row : nat -> vector) (W : matrix) :
  (forall b, b < n -> length (row b) = w) -> shaped h w W ->
  F_linear (map row (seq 0 n)) W None
  = Ok (tabulate n h (fun b j => dot (row b) (nth j W []))).
Proof.
  intros Hrow [Hh Hw]. unfold F_linear.
  rewrite andb_true_r.
  replace (forallb _ (map row (seq 0 n))) with true.
  - f_equal. unfold tabulate. rewrite map_map. apply map_ext. intros b.
    apply (map_tabulate (dot (row b)) W [] Hh).
  - symmetry. apply forallb_forall. intros x Hin.
    apply in_map_iff in Hin. destruct Hin as [b [<- Hb]].
    apply in_seq in Hb. apply forallb_forall. intros r Hr.
    rewrite Forall_forall in Hw. apply Nat.eqb_eq.
    rewrite (Hw r Hr). symmetry. apply Hrow. lia.
Qed.

Lemma F_linear_bias_tabulate n w h (row : nat -> vector) (W : matrix)
    (bias : vector) :
  (forall b, b < n -> length (row b) = w) -> shaped h w W ->
  length bias = h ->
  F_linear (map row (seq 0 n)) W (Some bias)
  = Ok (tabulate n h (fun b j =>
          sadd (dot (row b) (nth j W [])) (nth j bias garbage))).
Proof.
  intros Hrow [Hh Hw] Hb. unfold F_linear.
  replace (length bias =? length W) with true
    by (symmetry; apply Nat.eqb_eq; lia).
  rewrite andb_true_r.
  replace (forallb _ (map row (seq 0 n))) with true.
  - f_equal. unfold tabulate. rewrite map_map. apply map_ext. intros b.
    apply (map2_tabulate (fun w0 bj => sadd (dot (row b) w0) bj) W bias
             [] garbage Hh Hb).
  - symmetry. apply forallb_forall. intros x Hin.
    apply in_map_iff in Hin. destruct Hin as [b [<- Hb']].
    apply in_seq in Hb'. apply forallb_forall. intros r Hr.
    rewrite Forall_forall in Hw. apply Nat.eqb_eq.
    rewrite (Hw r Hr). symmetry. apply Hrow. lia.
Qed.

End TensorFacts.

(** ** LSTMCell.forward *)

Section CellFacts.
Context {T : Torch}.
Import LSTMCell CellSpec.

Lemma t_slice_nonempty {A} (l : list A) start stop :
  0 < length (py_slice l start stop) ->
  t_slice l start stop = Ok (py_slice l start stop).
Proof.
  unfold t_slice. destruct (py_slice l start stop); simpl; [lia | reflexivity].
Qed.

Lemma shaped_skipn n w k (t : matrix) :
  shaped n w t -> shaped (n - k) w (skipn k t).
Proof.
  intros [Hn Hw]. split; [rewrite length_skipn; lia |].
  rewrite Forall_forall in *. intros r Hr. apply Hw.
  rewrite <- (firstn_skipn k t). apply in_or_app. now right.
Qed.

(** A tensor mask is cut to the last [n] rows of the gate. *)
Lemma get_mask_slice_tensor (input : matrix) m3 g n :
  length input = n -> 0 < n -> g < length m3 -> n <= length (nth g m3 []) ->
  get_mask_slice input (Some (MaskTensor m3)) g
  = Ok (TensorMask (skipn (length (nth g m3 []) - n) (nth g m3 []))).
Proof.
  intros Hin Hn Hg Hrows. unfold get_mask_slice, py_index, size0.
  match goal with
  | |- context [@nth_error ?A ?l ?i] =>
      destruct (@nth_error A l i) as [gm |] eqn:E
  end.
  - apply (nth_error_nth _ _ []) in E. rewrite E in Hrows |- *.
    cbn [rbind]. rewrite Hin.
    rewrite t_slice_nonempty; rewrite py_slice_last by assumption.
    + reflexivity.
    + rewrite length_skipn. lia.
  - apply nth_error_None in E. lia.
Qed.

Lemma get_mask_slice_list (input : matrix) l g :
  g < length l ->
  get_mask_slice input (Some (MaskList l)) g = Ok (ScalarMask (nth g l 0%Q)).
Proof.
  intros Hg. unfold get_mask_slice, py_index.
  match goal with
  | |- context [@nth_error ?A ?l ?i] =>
      destruct (@nth_error A l i) as [q |] eqn:E
  end.
  - apply (nth_error_nth _ _ 0%Q) in E. now rewrite E.
  - apply nth_error_None in E. lia.
Qed.

(** [x * get_mask_slice(mask, g)], row by row. *)
Lemma masked_tabulate (input x : matrix) m g n w :
  length input = n -> 0 < n -> g < 4 ->
  mask_fits m n w -> shaped n w x ->
  (s <-- get_mask_slice input (Some m) g ;; mul_mask x s)
  = Ok (map (fun b => masked_row m g n b (nth b x [])) (seq 0 n)).
Proof.
  intros Hin Hn Hg Hfit Hx. destruct m as [l | m3]; simpl in Hfit.
  - rewrite get_mask_slice_list by lia. cbn [rbind mul_mask]. f_equal.
    unfold scale. apply (map_tabulate _ x [] (proj1 Hx)).
  - destruct Hfit as [H4 Hgate]. destruct (Hgate g Hg) as [Hrows Hshape].
    rewrite (get_mask_slice_tensor _ _ Hin Hn) by lia.
    cbn [rbind mul_mask]. unfold mul2.
    set (gm := nth g m3 []) in *.
    assert (Hcut : shaped n w (skipn (length gm - n) gm)).
    { replace n with (length gm - (length gm - n)) at 1 by lia.
      now apply shaped_skipn. }
    rewrite (same_shape_shaped Hx Hcut). f_equal.
    rewrite (map2_tabulate (map2 smul) _ _ [] [] (proj1 Hx) (proj1 Hcut)).
    apply map_seq_ext. intros b Hb. unfold masked_row. fold gm.
    now rewrite nth_skipn.
Qed.

Lemma length_masked_row m g n w b (row : vector) :
  g < 4 -> b < n -> mask_fits m n w -> length row = w ->
  length (masked_row m g n b row) = w.
Proof.
  intros Hg Hb Hfit Hrow. destruct m as [l | m3]; simpl in *.
  - now rewrite length_map.
  - destruct Hfit as [_ Hgate]. destruct (Hgate g Hg) as [Hrows Hshape].
    rewrite length_map2, Hrow.
    rewrite (shaped_row Hshape) by lia. lia.
Qed.

(** The step below the mask initialisation, in closed form. *)
Lemma gates_tabulate (c : t) mi mh (input h_prev c_prev : matrix) n :
  well_shaped c -> 0 < n ->
  shaped n (input_size c) input ->
  shaped n (hidden_size c) h_prev ->
  shaped n (hidden_size c) c_prev ->
  _input_dropout_mask c = Some mi -> _h_dropout_mask c = Some mh ->
  mask_fits mi n (input_size c) -> mask_fits mh n (hidden_size c) ->
  gates c input h_prev c_prev
  = Ok (tabulate n (hidden_size c) (hidden_next c mi mh input h_prev c_prev),
        tabulate n (hidden_size c) (cell_next c mi mh input h_prev c_prev)).
Proof.
  intros Hc Hn Hx Hh Hcp Hmi Hmh Hfi Hfh.
  destruct Hc as [[HWi [HUi Hbi]] [[HWf [HUf Hbf]] [[HWc [HUc Hbc]] [HWo [HUo Hbo]]]]].
  pose proof (proj1 Hx) as Hlen. subst n.
  assert (Hrx : forall g, g < 4 -> forall b, b < length input ->
            length (masked_row mi g (length input) b (nth b input []))
            = input_size c).
  { intros g Hg b Hb. apply length_masked_row; auto. now apply (shaped_row Hx). }
  assert (Hrh : forall g, g < 4 -> forall b, b < length input ->
            length (masked_row mh g (length input) b (nth b h_prev []))
            = hidden_size c).
  { intros g Hg b Hb. apply length_masked_row; auto. now apply (shaped_row Hh). }
  unfold gates. cbv beta zeta. rewrite Hmi, Hmh.
  repeat (erewrite (@masked_tabulate input _ _ _ _ _ eq_refl Hn);
            [ | lia | eassumption | eassumption ];
          cbn [rbind];
          first [ erewrite F_linear_tabulate with (w := hidden_size c);
                    [ | intros; apply Hrh; lia | eassumption ]
                | erewrite F_linear_bias_tabulate with (w := input_size c);
                    [ | intros; apply Hrx; lia | eassumption | eassumption ] ];
          cbn [rbind]).
  unfold F_sigmoid, F_tanh.
  repeat (first [ rewrite add2_tabulate | rewrite mul2_tabulate
                | rewrite (mul2_tabulate_entries _ Hcp)
                | rewrite map_tabulate2 ]; cbn [rbind]).
  reflexivity.
Qed.

End CellFacts.

Section CellStep.
Context {T : Torch}.
Import LSTMCell CellSpec.

(** With masks in place [forward] is the step and changes no state. *)
Lemma forward_with_masks (c : t) g m input hs :
  _input_dropout_mask c = Some m ->
  forward input hs (c, g) = (gates c input (fst hs) (snd hs), (c, g)).
Proof.
  intros Hm. destruct hs as [h_tm1 c_tm1].
  unfold forward, bind, self, lift, ret. simpl. now rewrite Hm.
Qed.

(** C1. For an input of [n] rows (at least one: torch has no tensor
    without rows), a previous hidden state and a previous cell state of
    matching shapes, on a cell whose masks are in place,
    [forward] returns the pair (hidden_next, cell_next) whose entry (b, j)
    is, with x_g the masked input projected by W_g plus the bias b_g and
    h_g the masked previous hidden state projected by U_g without bias,
    cell_next = sigmoid(x_f + h_f) * cell_prev + sigmoid(x_i + h_i) *
    tanh(x_c + h_c) and hidden_next = sigmoid(x_o + h_o) * tanh(cell_next);
    the cell and the random generator are left as they were. *)
Theorem forward_gate_recurrence (c : t) g mi mh input h_prev c_prev n :
  well_shaped c -> 0 < n ->
  shaped n (input_size c) input ->
  shaped n (hidden_size c) h_prev ->
  shaped n (hidden_size c) c_prev ->
  _input_dropout_mask c = Some mi -> _h_dropout_mask c = Some mh ->
  mask_fits mi n (input_size c) -> mask_fits mh n (hidden_size c) ->
  forward input (h_prev, c_prev) (c, g)
  = (Ok (tabulate n (hidden_size c) (hidden_next c mi mh input h_prev c_prev),
         tabulate n (hidden_size c) (cell_next c mi mh input h_prev c_prev)),
     (c, g)).
Proof.
  intros Hc Hn Hx Hh Hcp Hmi Hmh Hfi Hfh.
  erewrite forward_with_masks by eassumption. cbn [fst snd].
  now rewrite (gates_tabulate Hc Hn Hx Hh Hcp Hmi Hmh Hfi Hfh).
Qed.

End CellStep.

Ltac shaped_by_computation :=
  split; [reflexivity | repeat constructor].

Ltac well_shaped_by_computation :=
  unfold CellSpec.well_shaped; cbn;
  repeat split; repeat constructor.

Ltac mask_fits_by_computation :=
  cbn; first
    [ reflexivity
    | split; [reflexivity |];
      let g := fresh "g" in let Hg := fresh "Hg" in
      intros g Hg;
      do 4 (destruct g as [| g]; [cbn; split; [lia | shaped_by_computation] |]);
      exfalso; lia ].

(** The recurrence on a cell whose masks were sampled for two rows. *)
Lemma forward_gate_recurrence_witness :
  LSTMCell.forward Examples.x2 (Examples.h2, Examples.c2)
    (Examples.trained_cell, 5%N)
  = (Ok (CellSpec.tabulate 2 2
           (CellSpec.hidden_next Examples.trained_cell
              Examples.sampled_input_mask Examples.sampled_h_mask
              Examples.x2 Examples.h2 Examples.c2),
         CellSpec.tabulate 2 2
           (CellSpec.cell_next Examples.trained_cell
              Examples.sampled_input_mask Examples.sampled_h_mask
              Examples.x2 Examples.h2 Examples.c2)),
     (Examples.trained_cell, 5%N)).
Proof.
  apply (@forward_gate_recurrence Symbolic.torch Examples.trained_cell 5%N
           Examples.sampled_input_mask Examples.sampled_h_mask
           Examples.x2 Examples.h2 Examples.c2 2).
  - well_shaped_by_computation.
  - lia.
  - shaped_by_computation.
  - shaped_by_computation.
  - shaped_by_computation.
  - reflexivity.
  - reflexivity.
  - mask_fits_by_computation.
  - mask_fits_by_computation.
Defined.

Unset Implicit Arguments.

(** ** The monad *)

Section MonadFacts.
Context {S A B : Type}.

Lemma bind_ok (m : M S A) (f : A -> M S B) s a s' :
  m s = (Ok a, s') -> bind m f s = f a s'.
Proof. intros H. unfold bind. now rewrite H. Qed.

Lemma bind_err (m : M S A) (f : A -> M S B) s e s' :
  m s = (Err e, s') -> bind m f s = (Err e, s').
Proof. intros H. unfold bind. now rewrite H. Qed.
End MonadFacts.

(** ** LSTMCell.set_dropout_masks *)

Section MaskFacts.
Context {T : Torch}.
Import LSTMCell CellSpec.

Lemma truthy_positive (q : Q) : (0 < q)%Q -> truthy q = true.
Proof.
  intros Hq. unfold truthy. destruct (Qeq_bool q 0) eqn:E; [| reflexivity].
  apply Qeq_bool_iff in E. rewrite E in Hq. now apply Qlt_irrefl in Hq.
Qed.

Lemma truthy_zero (q : Q) : (q == 0)%Q -> truthy q = false.
Proof.
  intros Hq. unfold truthy. apply Qeq_bool_iff in Hq. now rewrite Hq.
Qed.

Lemma set_dropout_masks_scalar (c : t) g batch_size :
  truthy (dropout c) && training c = false ->
  set_dropout_masks batch_size (c, g)
  = (Ok tt,
     (let m := MaskList (repeat (if truthy (dropout c)
                                 then (1 - dropout c)%Q else 1%Q) 4) in
      with_masks m m c, g)).
Proof.
  intros H. unfold set_dropout_masks, bind, self, assign. cbn [fst snd].
  destruct (truthy (dropout c)); [| reflexivity].
  destruct (training c); [discriminate | reflexivity].
Qed.

(** C6. For every batch size: outside training mode with a dropout
    probability above 0, [set_dropout_masks] makes the input-side and the
    recurrent-side mask the list of the scalar 1 - dropout for each of the
    four gates, and draws nothing from the random generator; with a
    dropout probability of 0 both masks become the scalar 1.0 for each
    gate, in training mode and in inference mode alike. *)
Theorem set_dropout_masks_inference (c : t) g batch_size :
  (training c = false -> (0 < dropout c)%Q ->
   set_dropout_masks batch_size (c, g)
   = (Ok tt, (with_masks (MaskList (repeat (1 - dropout c)%Q 4))
                         (MaskList (repeat (1 - dropout c)%Q 4)) c, g)))
  /\
  ((dropout c == 0)%Q ->
   set_dropout_masks batch_size (c, g)
   = (Ok tt, (with_masks (MaskList (repeat 1%Q 4))
                         (MaskList (repeat 1%Q 4)) c, g))).
Proof.
  split.
  - intros Ht Hd. rewrite set_dropout_masks_scalar.
    + now rewrite (truthy_positive _ Hd).
    + rewrite Ht. apply andb_false_r.
  - intros Hd. rewrite set_dropout_masks_scalar.
    + now rewrite (truthy_zero _ Hd).
    + now rewrite (truthy_zero _ Hd).
Qed.






Lemma well_shaped_with_masks mi mh c :
  well_shaped c -> well_shaped (with_masks mi mh c).
Proof. intros H. exact H. Qed.


End MaskFacts.

(** C6 on a cell in inference mode with dropout 0.5 and on a cell with
    dropout 0. *)
Lemma set_dropout_masks_inference_witness :
  LSTMCell.set_dropout_masks 3 (Examples.eval_cell, 7%N)
  = (Ok tt, (CellSpec.with_masks (LSTMCell.MaskList (repeat (1 - (1 # 2))%Q 4))
               (LSTMCell.MaskList (repeat (1 - (1 # 2))%Q 4))
               Examples.eval_cell, 7%N))
  /\
  LSTMCell.set_dropout_masks 3 (Examples.plain_cell, 7%N)
  = (Ok tt, (CellSpec.with_masks (LSTMCell.MaskList (repeat 1%Q 4))
               (LSTMCell.MaskList (repeat 1%Q 4))
               Examples.plain_cell, 7%N)).
Proof.
  split.
  - apply (proj1 (set_dropout_masks_inference Examples.eval_cell 7%N 3)).
    + reflexivity.
    + reflexivity.
  - apply (proj2 (set_dropout_masks_inference Examples.plain_cell 7%N 3)).
    reflexivity.
Defined.


(** ** LSTMCell.__init__ and reset_parameters *)

Section InitFacts.
Context {T : Torch}.
Import LSTMCell CellSpec.

Lemma shaped_alloc2 rows cols : shaped rows cols (alloc2 rows cols).
Proof.
  split; [apply repeat_length |].
  apply Forall_forall. intros r Hr. apply repeat_spec in Hr. subst r.
  apply repeat_length.
Qed.

Lemma shaped_hd n w (t : list (list R)) :
  shaped n w t -> 0 < n -> length (hd [] t) = w.
Proof.
  intros [Hn Hw] Hpos. destruct t as [| r t]; simpl in *; [lia |].
  now inversion Hw.
Qed.

(** A tensor filled in place keeps its shape. *)
Lemma shaped_refill n w (t m : list (list R)) :
  shaped n w t ->
  length m = length t /\ Forall (fun r => length r = length (hd [] t)) m ->
  shaped n w m.
Proof.
  intros [Hn Hw] [Hl Hr]. split; [lia |].
  destruct t as [| r t]; cbn in *.
  - destruct m; [constructor | discriminate].
  - inversion Hw as [| ? ? Hrw _]. now rewrite Hrw in Hr.
Qed.

(** What [reset_parameters] leaves when it returns: the biases filled,
    everything but the parameters untouched. *)
Lemma reset_parameters_post (c : t) g c' g' :
  reset_parameters (c, g) = (Ok tt, (c', g')) ->
  (b_f c' = full1 (length (b_f c)) 1 /\
   b_i c' = full1 (length (b_i c)) 0 /\
   b_c c' = full1 (length (b_c c)) 0 /\
   b_o c' = full1 (length (b_o c)) 0) /\
  (input_size c' = input_size c /\ hidden_size c' = hidden_size c /\
   dropout c' = dropout c /\ training c' = training c /\
   _input_dropout_mask c' = _input_dropout_mask c /\
   _h_dropout_mask c' = _h_dropout_mask c).
Proof.
  unfold reset_parameters, init_orthogonal, sample, bind, self, assign.
  cbn [fst snd].
  repeat match goal with
         | |- context [orthogonal ?a ?b ?d] =>
             destruct (orthogonal a b d) as [[? | ?] ?]; cbn [fst snd];
             [| discriminate]
         end.
  intros E. inversion E. subst. cbn. repeat split; reflexivity.
Qed.

(** When [reset_parameters] returns, the parameters have the shapes they
    were allocated with. *)
Lemma reset_parameters_shapes (c : t) g c' g' :
  well_shaped c ->
  reset_parameters (c, g) = (Ok tt, (c', g')) -> well_shaped c'.
Proof.
  intros Hc.
  destruct Hc as [[HWi [HUi Hbi]] [[HWf [HUf Hbf]] [[HWc [HUc Hbc]] [HWo [HUo Hbo]]]]].
  unfold reset_parameters, init_orthogonal, sample, bind, self, assign.
  cbn [fst snd].
  repeat match goal with
         | |- context [orthogonal ?a ?b ?d] =>
             let E := fresh "E" in
             destruct (orthogonal a b d) as [[? | ?] ?] eqn:E;
             cbn [fst snd]; [| discriminate];
             apply (f_equal fst) in E; cbn [fst] in E;
             apply orthogonal_shape in E
         end.
  intros H. inversion H. subst. unfold well_shaped. cbn in *.
  unfold full1. rewrite !repeat_length.
  repeat match goal with
         | |- _ /\ _ => split
         | E : length ?m = length ?w /\ _ |- shaped _ _ ?m =>
             match goal with
             | Hs : shaped _ _ w |- _ => exact (shaped_refill _ _ w m Hs E)
             end
         | |- _ = _ => assumption
         end.
Qed.

(** With positive sizes [reset_parameters] returns. *)
Lemma reset_parameters_ok (c : t) g :
  well_shaped c -> 0 < input_size c -> 0 < hidden_size c ->
  exists c' g', reset_parameters (c, g) = (Ok tt, (c', g')).
Proof.
  intros Hc Hi Hh.
  destruct Hc as [[HWi [HUi Hbi]] [[HWf [HUf Hbf]] [[HWc [HUc Hbc]] [HWo [HUo Hbo]]]]].
  unfold reset_parameters, init_orthogonal, sample, bind, self, assign.
  cbn.
  repeat match goal with
         | |- context [orthogonal ?a (length ?w) (length (hd [] ?w))] =>
             match goal with
             | H : shaped ?n ?k w |- _ =>
                 rewrite (proj1 H), (shaped_hd _ _ _ H Hh);
                 let m := fresh "m" in
                 let E := fresh "E" in
                 destruct (@orthogonal_returns T a n k ltac:(assumption)
                             ltac:(assumption)) as (m & E);
                 destruct (orthogonal a n k) as [? ?]; cbn [fst] in E;
                 subst; cbn
             end
         end.
  eexists _, _. reflexivity.
Qed.

End InitFacts.

Section InitTheorems.
Context {T : Torch}.
Import LSTMCell CellSpec Notions.

(** C5. Right after the construction of a cell the forget-gate bias holds
    1.0 in every entry, and the input-gate, cell-candidate and output-gate
    biases hold 0.0 in every entry; each has [hidden_size] entries. *)
Theorem init_biases (input_size hidden_size : nat) (dropout : Q) g c g' :
  __init__ input_size hidden_size dropout g = (Ok c, g') ->
  b_f c = repeat (of_float 1) hidden_size /\
  b_i c = repeat (of_float 0) hidden_size /\
  b_c c = repeat (of_float 0) hidden_size /\
  b_o c = repeat (of_float 0) hidden_size.
Proof.
  unfold __init__.
  match goal with
  | |- context [reset_parameters ?s] =>
      destruct (reset_parameters s) as [[[] | e] [c' g1]] eqn:E
  end; [| discriminate].
  intros H. inversion H. subst c' g1.
  apply reset_parameters_post in E. destruct E as [[Hf [Hi [Hc Ho]]] _].
  cbn in Hf, Hi, Hc, Ho. unfold alloc1 in *.
  rewrite repeat_length in Hf, Hi, Hc, Ho.
  repeat split; assumption.
Qed.


(** Whatever the sizes, a cell that [__init__] returns has them, and its
    parameters have the shapes allocated. *)
Lemma init_well_shaped (input_size hidden_size : nat) (dropout : Q) g c g' :
  __init__ input_size hidden_size dropout g = (Ok c, g') ->
  well_shaped c /\
  LSTMCell.input_size c = input_size /\
  LSTMCell.hidden_size c = hidden_size.
Proof.
  unfold __init__.
  match goal with
  | |- context [reset_parameters (?c0, g)] =>
      assert (Hc0 : well_shaped c0)
        by (unfold well_shaped; cbn;
            repeat split; first [ apply shaped_alloc2 | apply repeat_length ]);
      destruct (reset_parameters (c0, g)) as [[[] | e] [c' g1]] eqn:E
  end; [| discriminate].
  intros H. inversion H. subst c' g1.
  pose proof (reset_parameters_shapes _ _ _ _ Hc0 E) as Hc.
  apply reset_parameters_post in E. destruct E as [_ (Pi & Ph & _)].
  cbn in Pi, Ph. now split.
Qed.

End InitTheorems.

(** C5 on the construction of [LSTMCell(2, 2, dropout=0.5)]. *)
Lemma init_biases_witness :
  LSTMCell.b_f Examples.fresh_cell = repeat (of_float 1) 2 /\
  LSTMCell.b_i Examples.fresh_cell = repeat (of_float 0) 2 /\
  LSTMCell.b_c Examples.fresh_cell = repeat (of_float 0) 2 /\
  LSTMCell.b_o Examples.fresh_cell = repeat (of_float 0) 2.
Proof.
  apply (@init_biases Symbolic.torch 2 2 (1 # 2) 7%N Examples.fresh_cell
           (snd (LSTMCell.__init__ (T := Symbolic.torch) 2 2 (1 # 2) 7%N))).
  reflexivity.
Defined.



(** ** Reasoning on the monad: invariants and frames *)

Section Hoare.
Context {S : Type}.
Variable I : S -> Prop.

Import Logic.

Lemma hoare_ret {A} (a : A) (Q : A -> Prop) : Q a -> hoare I (ret a) Q.
Proof.
  intros HQ s Hs. split; [exact Hs |]. intros a' E. inversion E. now subst.
Qed.

Lemma hoare_raise {A} e (Q : A -> Prop) : hoare I (raise e) Q.
Proof. intros s Hs. split; [exact Hs | discriminate]. Qed.

Lemma hoare_lift {A} (r : result A) (Q : A -> Prop) :
  (forall a, r = Ok a -> Q a) -> hoare I (lift r) Q.
Proof. intros HQ s Hs. split; [exact Hs | exact HQ]. Qed.

Lemma hoare_bind {A B} (m : M S A) (f : A -> M S B) (P : A -> Prop)
    (Q : B -> Prop) :
  hoare I m P -> (forall a, P a -> hoare I (f a) Q) -> hoare I (bind m f) Q.
Proof.
  intros Hm Hf s Hs. destruct (Hm s Hs) as [Is' HP]. unfold bind.
  destruct (m s) as [[a | e] s']; cbn [fst snd] in *.
  - exact (Hf a (HP a eq_refl) s' Is').
  - split; [exact Is' | discriminate].
Qed.

Lemma hoare_weaken {A} (m : M S A) (P Q : A -> Prop) :
  hoare I m P -> (forall a, P a -> Q a) -> hoare I m Q.
Proof.
  intros Hm HPQ s Hs. destruct (Hm s Hs) as [Is' HP].
  split; [exact Is' |]. intros a E. apply HPQ, HP, E.
Qed.

Lemma hoare_if {A} (b : bool) (m1 m2 : M S A) (Q : A -> Prop) :
  hoare I m1 Q -> hoare I m2 Q -> hoare I (if b then m1 else m2) Q.
Proof. now destruct b. Qed.
End Hoare.

Section Frame.
Context {L G : Type}.
Variable l : L.

Import Logic.

Lemma frame_ret {A} (a : A) : frame (G := G) l (ret a).
Proof. now exists (Ok a). Qed.

Lemma frame_raise {A} e : frame (G := G) l (@raise _ A e).
Proof. now exists (Err e). Qed.

Lemma frame_lift {A} (r : result A) : frame (G := G) l (lift r).
Proof. now exists r. Qed.

Lemma frame_bind {A B} (m : M (L * G) A) (f : A -> M (L * G) B) :
  frame (G := G) l m -> (forall a, frame (G := G) l (f a)) -> frame (G := G) l (bind m f).
Proof.
  intros [r Hm] Hf. destruct r as [a | e].
  - destruct (Hf a) as [r' Hfa]. exists r'. intros g.
    unfold bind. now rewrite Hm.
  - exists (Err e). intros g. unfold bind. now rewrite Hm.
Qed.

Lemma frame_if {A} (b : bool) (m1 m2 : M (L * G) A) :
  frame (G := G) l m1 -> frame (G := G) l m2 -> frame (G := G) l (if b then m1 else m2).
Proof. now destruct b. Qed.
End Frame.

(** ** torch.nn._functions.rnn *)

Section CatFacts.
Context {T : Torch}.
Import Notions.

Lemma cat0_concat (ts : list (list (list R))) r :
  cat0 ts = Ok r -> r = concat ts.
Proof.
  unfold cat0. destruct (concat ts) as [| x xs]; [discriminate |].
  destruct (forallb _ xs); [| discriminate]. intros E. now inversion E.
Qed.



End CatFacts.

Section RecurrentInvariant.
Context {T : Torch}.
Context {S : Type}.
Import Notions Logic.
Variable __debug__ : bool.
Variable I : S -> Prop.
Variable w : nat.

Ltac pure_steps :=
  repeat (eapply hoare_bind;
          [ apply hoare_lift with (Q := fun _ => True); trivial
          | intros ? _ ]).

Lemma py_assert_hoare b : hoare I (@rnn.py_assert S __debug__ b) (fun _ => True).
Proof.
  unfold rnn.py_assert. apply hoare_if; [apply hoare_raise | now apply hoare_ret].
Qed.








End RecurrentInvariant.

Section RecurrentFrame.
Context {T : Torch}.
Context {L G : Type}.
Variable __debug__ : bool.
Variable l : L.

Import Logic.

Ltac frame_steps :=
  repeat first
    [ apply frame_ret | apply frame_lift | apply frame_raise
    | apply frame_bind; [| intros ?]
    | apply frame_if
    | match goal with
      | |- frame _ (match ?p with (_, _) => _ end) => destruct p
      end ].

Lemma py_assert_frame b : frame (G := G) l (@rnn.py_assert (L * G) __debug__ b).
Proof. unfold rnn.py_assert. frame_steps. Qed.

Lemma VariableRecurrent_loop_frame inner input weight :
  step_frame (G := G) l inner ->
  forall batch_sizes input_offset last_batch_size hiddens hidden output,
    frame (G := G) l (rnn.VariableRecurrent_loop inner input weight batch_sizes
               input_offset last_batch_size hiddens hidden output).
Proof.
  intros Hinner. induction batch_sizes as [| batch_size rest IH];
    intros input_offset last_batch_size hiddens hidden output;
    cbn [rnn.VariableRecurrent_loop].
  - apply frame_ret.
  - apply frame_bind; [apply frame_lift |]. intros step_input.
    apply frame_bind; [frame_steps |]. intros [hiddens' hidden'].
    apply frame_bind; [apply Hinner |]. intros h'. apply IH.
Qed.

Lemma VariableRecurrentReverse_loop_frame inner input weight :
  step_frame (G := G) l inner ->
  forall batch_sizes input_offset last_batch_size initial_hidden hidden output,
    frame (G := G) l (rnn.VariableRecurrentReverse_loop inner input weight
               batch_sizes input_offset last_batch_size initial_hidden
               hidden output).
Proof.
  intros Hinner. induction batch_sizes as [| batch_size rest IH];
    intros input_offset last_batch_size initial_hidden hidden output;
    cbn [rnn.VariableRecurrentReverse_loop].
  - apply frame_ret.
  - apply frame_bind; [frame_steps |]. intros hidden'.
    apply frame_bind; [apply frame_lift |]. intros step_input.
    apply frame_bind; [apply Hinner |]. intros h'. apply IH.
Qed.

Lemma variable_recurrent_factory_frame batch_sizes inner reverse :
  step_frame (G := G) l inner ->
  direction_frame (G := G) l (rnn.variable_recurrent_factory __debug__ batch_sizes
                     inner reverse).
Proof.
  intros Hinner input hidden weight. unfold rnn.variable_recurrent_factory.
  destruct reverse.
  - unfold rnn.VariableRecurrentReverse.
    apply frame_bind; [apply frame_lift |]. intros last.
    apply frame_bind; [apply frame_lift |]. intros h.
    apply frame_bind; [apply frame_lift |]. intros c.
    apply frame_bind;
      [now apply VariableRecurrentReverse_loop_frame |].
    intros [hidden' output]. frame_steps.
  - unfold rnn.VariableRecurrent.
    apply frame_bind; [apply frame_lift |]. intros last.
    apply frame_bind; [now apply VariableRecurrent_loop_frame |].
    intros [[hiddens' hidden'] output].
    apply frame_bind; [apply frame_lift |]. intros h.
    apply frame_bind; [apply frame_lift |]. intros c.
    apply frame_bind; [apply frame_lift |]. intros first.
    apply frame_bind; [apply py_assert_frame |]. intros _.
    frame_steps.
Qed.

Lemma StackedRNN_directions_frame inners :
  Forall (direction_frame (G := G) l) inners ->
  forall j input hidden weight next_hidden all_output,
    frame (G := G) l (rnn.StackedRNN_directions inners j input hidden weight
               next_hidden all_output).
Proof.
  induction inners as [| inner rest IH];
    intros Hin j input hidden weight next_hidden all_output;
    cbn [rnn.StackedRNN_directions].
  - apply frame_ret.
  - inversion Hin as [| ? ? Hinner Hrest]. subst.
    apply frame_bind; [apply frame_lift |]. intros hl.
    apply frame_bind; [apply frame_lift |]. intros wl.
    apply frame_bind; [apply Hinner |]. intros [hy output].
    now apply IH.
Qed.

Lemma StackedRNN_frame inners input hidden weight :
  Forall (direction_frame (G := G) l) inners ->
  frame (G := G) l (rnn.StackedRNN __debug__ inners input hidden weight).
Proof.
  intros Hin. unfold rnn.StackedRNN.
  apply frame_bind; [apply py_assert_frame |]. intros _.
  apply frame_bind; [now apply StackedRNN_directions_frame |].
  intros [next_hidden all_output]. frame_steps.
Qed.

End RecurrentFrame.

(** ** The cell inside the layer *)

Section CellInLayer.
Context {T : Torch}.
Import Notions Logic.

Lemma widths_zip (op : R -> R -> R) a b :
  same_shape a b = true -> widths (map2 (map2 op) a b) = widths a.
Proof.
  unfold same_shape. intros H. apply andb_true_iff in H.
  destruct H as [Hl Hw]. apply Nat.eqb_eq in Hl.
  revert b Hl Hw. induction a as [| x a IH]; intros [| y b] Hl Hw;
    try discriminate; [reflexivity |].
  cbn in Hw. apply andb_true_iff in Hw. destruct Hw as [Hxy Hw].
  apply Nat.eqb_eq in Hxy. cbn [fst snd] in Hxy.
  change (widths (map2 (map2 op) (x :: a) (y :: b)))
    with (length (map2 op x y) :: widths (map2 (map2 op) a b)).
  change (widths (x :: a)) with (length x :: widths a). f_equal.
  - rewrite length_map2. lia.
  - apply IH; [now inversion Hl | exact Hw].
Qed.

Lemma widths_mul2 a b y : mul2 a b = Ok y -> widths y = widths a.
Proof.
  unfold mul2. destruct (same_shape a b) eqn:E; [| discriminate].
  intros H. inversion H. now apply widths_zip.
Qed.

Lemma widths_add2 a b y : add2 a b = Ok y -> widths y = widths a.
Proof.
  unfold add2. destruct (same_shape a b) eqn:E; [| discriminate].
  intros H. inversion H. now apply widths_zip.
Qed.

Lemma widths_map (f : R -> R) a : widths (map (map f) a) = widths a.
Proof.
  unfold widths. rewrite map_map. apply map_ext. intros r.
  apply length_map.
Qed.

Lemma widths_F_linear x W b y :
  F_linear x W (Some b) = Ok y -> row_width (length W) y.
Proof.
  unfold F_linear. destruct (forallb _ x); [| discriminate]. cbn [andb].
  destruct (length b =? length W) eqn:E; [| discriminate].
  apply Nat.eqb_eq in E. intros H. inversion H.
  apply Forall_forall. intros r Hr. apply in_map_iff in Hr.
  destruct Hr as [x0 [<- _]]. rewrite length_map2. lia.
Qed.

Lemma row_width_widths w a b :
  widths a = widths b -> row_width w b -> row_width w a.
Proof.
  unfold row_width, widths. intros E Hb.
  apply (proj1 (Forall_map (@length R) (fun n => n = w) a)).
  rewrite E.
  exact (proj2 (Forall_map (@length R) (fun n => n = w) b) Hb).
Qed.


Lemma set_dropout_masks_weights batch_size c g :
  erase_masks (fst (snd (LSTMCell.set_dropout_masks batch_size (c, g))))
  = erase_masks c.
Proof.
  unfold LSTMCell.set_dropout_masks, bind, LSTMCell.self, LSTMCell.assign,
    LSTMCell.sample. cbn [fst snd].
  destruct (truthy (LSTMCell.dropout c)); [| reflexivity].
  destruct (LSTMCell.training c); [| reflexivity].
  repeat match goal with
         | |- context [bernoulli3 ?d ?n ?w ?p ?g0] =>
             destruct (bernoulli3 d n w p g0) as [[? | ?] ?];
             cbn [fst snd]; [| reflexivity]
         end.
  reflexivity.
Qed.

Lemma forward_weights input hs c g :
  erase_masks (fst (snd (LSTMCell.forward input hs (c, g)))) = erase_masks c.
Proof.
  destruct hs as [h_tm1 c_tm1].
  unfold LSTMCell.forward, bind at 1, LSTMCell.self at 1. cbn [fst snd].
  destruct (LSTMCell._input_dropout_mask c).
  - reflexivity.
  - unfold bind at 1.
    pose proof (set_dropout_masks_weights (size0 input) c g) as Hw.
    destruct (LSTMCell.set_dropout_masks (size0 input) (c, g))
      as [[[] | e] [c' g']]; cbn [fst snd] in *; exact Hw.
Qed.


Lemma splice_same {A} (cells : list A) k c :
  nth_error cells k = Some c ->
  firstn k cells ++ c :: skipn (k + 1) cells = cells.
Proof.
  revert k. induction cells as [| x cells IH]; intros [| k] H;
    try discriminate.
  - inversion H. reflexivity.
  - cbn in *. f_equal. now apply IH.
Qed.

Lemma splice_map {A B} (f : A -> B) (cells : list A) k c c' :
  nth_error cells k = Some c -> f c' = f c ->
  map f (firstn k cells ++ c' :: skipn (k + 1) cells) = map f cells.
Proof.
  intros Hk Hf. rewrite <- (splice_same cells k c Hk) at 3.
  rewrite !map_app. cbn [map]. now rewrite Hf.
Qed.

(** A method of a cell that leaves the weights of the cell alone leaves
    the weight state of the layer alone. *)
Lemma on_cell_weight_state {A} k (m : M LSTMCell.world A) s :
  (forall c g, erase_masks (fst (snd (m (c, g)))) = erase_masks c) ->
  weight_state (fst (snd (LSTM.on_cell k m s))) = weight_state (fst s).
Proof.
  intros Hm. destruct s as [l g]. unfold LSTM.on_cell. cbn [fst snd].
  destruct (nth_error (LSTM.lstm_cells l) k) as [c |] eqn:Hk;
    [| reflexivity].
  specialize (Hm c g). destruct (m (c, g)) as [r [c' g']].
  cbn [fst snd] in *. unfold weight_state, with_cells, LSTM.set_cell.
  cbn. f_equal. exact (splice_map erase_masks _ k c c' Hk Hm).
Qed.


End CellInLayer.

(** ** LSTM.forward *)

Section LayerFacts.
Context {T : Torch}.
Import Notions Logic.
Variable __debug__ : bool.

Lemma weight_state_config l l0 :
  weight_state l = weight_state l0 ->
  LSTM.hidden_size l = LSTM.hidden_size l0 /\
  LSTM.bidirectional l = LSTM.bidirectional l0.
Proof.
  unfold weight_state, with_cells. intros E. inversion E. now split.
Qed.

Lemma self_hoare l0 :
  hoare (keeps_weights l0) LSTM.self
    (fun l => weight_state l = weight_state l0).
Proof.
  intros s Hs. split; [exact Hs |]. intros l E.
  unfold LSTM.self in E. cbn in E. inversion E. exact Hs.
Qed.

Lemma on_cell_hoare {A} l0 k (m : M LSTMCell.world A) :
  (forall c g, erase_masks (fst (snd (m (c, g)))) = erase_masks c) ->
  hoare (keeps_weights l0) (LSTM.on_cell k m) (fun _ => True).
Proof.
  intros Hm s Hs. split; [| trivial]. unfold keeps_weights.
  now rewrite (on_cell_weight_state k m s Hm).
Qed.

Lemma set_all_dropout_masks_hoare l0 n k max_batch_size :
  hoare (keeps_weights l0) (LSTM.set_all_dropout_masks n k max_batch_size)
    (fun _ => True).
Proof.
  revert k. induction n as [| n IH]; intros k;
    cbn [LSTM.set_all_dropout_masks].
  - now apply hoare_ret.
  - eapply hoare_bind with (P := fun _ => True).
    + apply on_cell_hoare. intros c g. apply set_dropout_masks_weights.
    + intros _ _. apply IH.
Qed.




(** C3. [forward] on an input that is not a packed sequence raises
    NotImplementedError at once: nothing is returned, and the layer with
    its weights and masks, and the random generator, are as before. *)
Theorem forward_rejects_padded (l : LSTM.t) g x hidden_state :
  LSTM.forward __debug__ (LSTM.Padded x) hidden_state (l, g)
  = (Err NotImplementedError, (l, g)).
Proof. reflexivity. Qed.



End LayerFacts.

Section Determinism.
Context {T : Torch}.
Import Notions Logic.
Variable __debug__ : bool.

Lemma set_cell_same l k c :
  nth_error (LSTM.lstm_cells l) k = Some c -> LSTM.set_cell k c l = l.
Proof.
  intros Hk. destruct l as [i h b d cells t]. unfold LSTM.set_cell.
  cbn in *. f_equal. now apply splice_same.
Qed.

(** On a layer whose cells all have masks a step reads the cell and
    changes nothing. *)
Lemma cell_lambda_frame l k :
  Forall (fun c => LSTMCell._input_dropout_mask c <> None)
    (LSTM.lstm_cells l) ->
  step_frame (G := rng) l (LSTM.cell_lambda k).
Proof.
  intros Hmasks x h weight. unfold LSTM.cell_lambda.
  destruct weight; cbv beta iota; [| apply frame_raise].
  destruct (nth_error (LSTM.lstm_cells l) k) as [c |] eqn:Hk.
  - rewrite Forall_forall in Hmasks.
    pose proof (Hmasks c (nth_error_In _ _ Hk)) as Hc.
    destruct (LSTMCell._input_dropout_mask c) as [m |] eqn:Hm;
      [| congruence].
    exists (LSTMCell.gates c x (fst h) (snd h)). intros g.
    unfold LSTM.on_cell. cbn [fst snd]. rewrite Hk.
    rewrite (forward_with_masks c g x h Hm).
    now rewrite (set_cell_same l k c Hk).
  - exists (Err AttributeError). intros g.
    unfold LSTM.on_cell. cbn [fst snd]. now rewrite Hk.
Qed.

(** Without dropout the masks of every cell become the scalar 1.0 for
    each gate, and nothing is drawn. *)
Lemma set_all_unit_masks max_batch_size post :
  forall pre l g,
    LSTM.lstm_cells l = pre ++ post ->
    Forall (fun c => (LSTMCell.dropout c == 0)%Q) post ->
    LSTM.set_all_dropout_masks (length post) (length pre) max_batch_size
      (l, g)
    = (Ok tt, (with_cells (pre ++ map unit_masks post) l, g)).
Proof.
  induction post as [| c post IH]; intros pre l g Hcells Hd.
  - cbn. rewrite app_nil_r in *. destruct l. cbn in *. now subst.
  - inversion Hd as [| ? ? Hc Hpost]. subst.
    cbn [LSTM.set_all_dropout_masks length].
    assert (Hk : nth_error (LSTM.lstm_cells l) (length pre) = Some c).
    { rewrite Hcells, nth_error_app2, Nat.sub_diag by lia. reflexivity. }
    assert (Hstep : LSTM.on_cell (length pre)
                      (LSTMCell.set_dropout_masks max_batch_size) (l, g)
                    = (Ok tt,
                       (with_cells (pre ++ unit_masks c :: post) l, g))).
    { unfold LSTM.on_cell. cbn [fst snd]. rewrite Hk.
      rewrite set_dropout_masks_scalar
        by (rewrite (truthy_zero _ Hc); reflexivity).
      rewrite (truthy_zero _ Hc). cbv zeta. fold (unit_masks c).
      unfold LSTM.set_cell, with_cells. do 3 f_equal. rewrite Hcells.
      rewrite firstn_app, firstn_all, Nat.sub_diag, app_nil_r.
      rewrite skipn_app, skipn_all2 by lia.
      replace (length pre + 1 - length pre) with 1 by lia. reflexivity. }
    rewrite (bind_ok _ _ _ _ _ Hstep).
    specialize (IH (pre ++ [unit_masks c])
                  (with_cells (pre ++ unit_masks c :: post) l) g).
    rewrite length_app in IH. cbn [length] in IH.
    rewrite IH; [| cbn; now rewrite <- app_assoc | assumption].
    unfold with_cells. cbn. now rewrite <- app_assoc.
Qed.

Lemma unit_masks_of_weights cells1 cells2 :
  map erase_masks cells1 = map erase_masks cells2 ->
  map unit_masks cells1 = map unit_masks cells2.
Proof.
  intros E.
  transitivity (map unit_masks (map erase_masks cells1)).
  - rewrite map_map. now apply map_ext.
  - rewrite E, map_map. now apply map_ext.
Qed.

Lemma dropout_of_weights cells1 cells2 :
  map erase_masks cells1 = map erase_masks cells2 ->
  Forall (fun c => (LSTMCell.dropout c == 0)%Q) cells1 ->
  Forall (fun c => (LSTMCell.dropout c == 0)%Q) cells2.
Proof.
  intros E H.
  apply (proj1 (Forall_map erase_masks
                  (fun c => (LSTMCell.dropout c == 0)%Q) cells2)).
  rewrite <- E.
  now apply (proj2 (Forall_map erase_masks
                      (fun c => (LSTMCell.dropout c == 0)%Q) cells1)).
Qed.

(** The call after the masks are set: determined by the layer alone. *)
Lemma forward_tail_frame l batch_sizes input hidden_state :
  Forall (fun c => LSTMCell._input_dropout_mask c <> None)
    (LSTM.lstm_cells l) ->
  frame (G := rng) l
    (rnn.StackedRNN __debug__
       (if LSTM.bidirectional l
        then [rnn.variable_recurrent_factory __debug__ batch_sizes
                (LSTM.cell_lambda 0) false;
              rnn.variable_recurrent_factory __debug__ batch_sizes
                (LSTM.cell_lambda 1) true]
        else [rnn.variable_recurrent_factory __debug__ batch_sizes
                (LSTM.cell_lambda 0) false])
       input hidden_state [[]; []]).
Proof.
  intros Hmasks. apply StackedRNN_frame.
  destruct (LSTM.bidirectional l);
    repeat (apply Forall_cons;
            [ apply variable_recurrent_factory_frame;
              now apply cell_lambda_frame |]);
    apply Forall_nil.
Qed.

(** C9. Two calls of [forward] in inference mode on layers without
    dropout that have the same weights and configuration, with the same
    input and the same initial state, return the same: the same output and
    the same final state, or the same exception. Neither the masks that
    earlier calls left in the cells nor the state of the random generator
    has any part in it. *)
Theorem forward_deterministic (l1 l2 : LSTM.t) g1 g2 input hidden_state :
  weight_state l1 = weight_state l2 ->
  Forall (fun c => (LSTMCell.dropout c == 0)%Q) (LSTM.lstm_cells l1) ->
  Forall (fun c => LSTMCell.training c = false) (LSTM.lstm_cells l1) ->
  fst (LSTM.forward __debug__ input hidden_state (l1, g1))
  = fst (LSTM.forward __debug__ input hidden_state (l2, g2)).
Proof.
  intros Hw Hd1 _. destruct input as [p | x]; [| reflexivity].
  assert (Hcells : map erase_masks (LSTM.lstm_cells l1)
                   = map erase_masks (LSTM.lstm_cells l2))
    by (unfold weight_state, with_cells in Hw; now inversion Hw).
  pose proof (dropout_of_weights _ _ Hcells Hd1) as Hd2.
  assert (Hl : with_cells (map unit_masks (LSTM.lstm_cells l1)) l1
               = with_cells (map unit_masks (LSTM.lstm_cells l2)) l2).
  { unfold weight_state, with_cells in *. inversion Hw.
    f_equal; try assumption. now apply unit_masks_of_weights. }
  unfold LSTM.forward, bind, lift, LSTM.self, py_index.
  cbn [fst snd].
  destruct (nth_error (LSTM.batch_sizes p) 0) as [max_batch_size |];
    [| reflexivity].
  pose proof (set_all_unit_masks max_batch_size (LSTM.lstm_cells l1) [] l1
                g1 eq_refl Hd1) as E1.
  pose proof (set_all_unit_masks max_batch_size (LSTM.lstm_cells l2) [] l2
                g2 eq_refl Hd2) as E2.
  cbn [length app] in E1, E2. rewrite E1, E2.
  cbn [fst snd]. rewrite <- Hl.
  set (l := with_cells (map unit_masks (LSTM.lstm_cells l1)) l1).
  assert (Hmasks : Forall (fun c => LSTMCell._input_dropout_mask c <> None)
                     (LSTM.lstm_cells l)).
  { unfold l, with_cells. cbn.
    apply Forall_forall. intros c Hc. apply in_map_iff in Hc.
    destruct Hc as [c0 [<- _]]. discriminate. }
  match goal with
  | |- context [rnn.StackedRNN __debug__ _ ?inp ?hs _ (l, g1)] =>
      destruct (forward_tail_frame l (LSTM.batch_sizes p) inp hs Hmasks)
        as [r Hr]
  end.
  rewrite (Hr g1), (Hr g2).
  destruct r as [[next_hidden output] | e]; reflexivity.
Qed.

End Determinism.

(** ** LSTM.__init__ *)

Section LayerInit.
Context {T : Torch}.
Import Notions.

Lemma construct_cells_sized n input_size hidden_size dropout :
  forall g cells g',
    LSTM.construct_cells n input_size hidden_size dropout g = (Ok cells, g') ->
    Forall (fun c => length (LSTMCell.W_o c) = hidden_size) cells.
Proof.
  induction n as [| n IH]; intros g cells g' E; cbn in E.
  - inversion E. constructor.
  - unfold bind in E.
    destruct (LSTMCell.__init__ input_size hidden_size dropout g)
      as [[c | e] g1] eqn:E1; [| discriminate E].
    destruct (LSTM.construct_cells n input_size hidden_size dropout g1)
      as [[rest | e] g2] eqn:E2; [| discriminate E].
    inversion E. subst. constructor; [| exact (IH _ _ _ E2)].
    destruct (init_well_shaped _ _ _ _ _ _ E1) as (Hc & _ & Hh).
    destruct Hc as (_ & _ & _ & (HWo & _)).
    rewrite <- Hh. exact (proj1 HWo).
Qed.

(** The layers that [__init__] returns satisfy the assumption of C7. *)
Lemma init_output_projections_sized input_size hidden_size bidirectional
    dropout g l g' :
  LSTM.__init__ input_size hidden_size bidirectional dropout g = (Ok l, g') ->
  output_projections_sized l.
Proof.
  unfold LSTM.__init__, bind. intros E.
  destruct (LSTM.construct_cells _ input_size hidden_size dropout g)
    as [[cells | e] g1] eqn:E1; [| discriminate E].
  inversion E. subst. unfold output_projections_sized. cbn.
  exact (construct_cells_sized _ _ _ _ _ _ _ E1).
Qed.

End LayerInit.


(** C9 on a layer and on the same layer with stale masks, from two states
    of the random generator. *)
Lemma forward_deterministic_witness :
  fst (LSTM.forward true (LSTM.Packed Examples.packed3) None
         (Examples.plain_layer, 3%N))
  = fst (LSTM.forward true (LSTM.Packed Examples.packed3) None
           (Examples.stale_layer, 11%N)).
Proof.
  apply (@forward_deterministic Symbolic.torch true Examples.plain_layer
           Examples.stale_layer 3%N 11%N).
  - reflexivity.
  - repeat (constructor; [reflexivity |]). constructor.
  - repeat (constructor; [reflexivity |]). constructor.
Defined.

(** ** The slice of the masks *)

Section MaskSlice.
Context {T : Torch}.
Import LSTMCell Notions.

(** For a step of [n] rows, 0 < n, on masks built for a batch of at least
    [n] rows, row [j] of the step meets row [B - n + j] of the gate's
    mask, [B] being the rows of the mask: the last [n] rows. *)
Lemma mask_slice_rows (input : list (list R)) m3 g n :
  length input = n -> 0 < n -> g < length m3 ->
  n <= length (nth g m3 []) ->
  exists slice,
    get_mask_slice input (Some (MaskTensor m3)) g = Ok (TensorMask slice) /\
    length slice = n /\
    forall j, j < n ->
      nth_error slice j
      = nth_error (nth g m3 []) (length (nth g m3 []) - n + j).
Proof.
  intros Hin Hn Hg Hrows. eexists. split.
  - exact (@get_mask_slice_tensor T input m3 g n Hin Hn Hg Hrows).
  - split; [rewrite length_skipn; lia |].
    intros j Hj. now rewrite nth_error_skipn.
Qed.

(** Without rows in the input the slice [mask[idx][-0:]] is the whole
    mask. *)
Lemma mask_slice_no_rows m3 g gm :
  nth_error m3 g = Some gm -> gm <> [] ->
  get_mask_slice [] (Some (MaskTensor m3)) g = Ok (TensorMask gm).
Proof.
  intros Hg Hne. unfold get_mask_slice, py_index. rewrite Hg.
  cbn [rbind size0 length]. unfold t_slice.
  rewrite py_slice_minus_zero. destruct gm; [congruence | reflexivity].
Qed.
End MaskSlice.

(** C2, on the code. The masks of [Examples.trained_cell] were sampled for a
    batch of two; the mask of gate i on the input side is [0 1] for sample 0
    and [1 1] for sample 1. When both samples are active each meets its own
    row. When the batch has shrunk to one row the slice is the last row of
    the mask, the row of sample 1, while the row that the recurrence still
    steps is the leading one, sample 0: the sample that is still active
    does not keep its mask. *)
Theorem trailing_mask_rows_break_identity :
  LSTMCell.get_mask_slice Examples.x2 (Some Examples.sampled_input_mask) 0
  = Ok (LSTMCell.TensorMask Examples.gate_i_rows)
  /\
  LSTMCell.get_mask_slice Examples.x1 (Some Examples.sampled_input_mask) 0
  = Ok (LSTMCell.TensorMask Examples.gate_i_last_row)
  /\
  ~ Notions.keeps_mask_identity Examples.gate_i_rows Examples.gate_i_last_row
  /\
  snd (rnn.VariableRecurrent true Notions.probe
         (LSTM.data Examples.packed3) [] (LSTM.batch_sizes Examples.packed3)
         (Examples.c2, Examples.h2) [])
  = Examples.steps_of_packed3.
Proof.
  split; [reflexivity |]. split; [reflexivity |].
  split; [| reflexivity].
  intros H. specialize (H 0 (Nat.lt_0_succ 0)). discriminate H.
Qed.

(** * Further properties *)

(** ** The methods of the cell *)

Section CellExtras.
Context {T : Torch}.
Import Notions Logic Properties.

Lemma widths_length (a b : list (list R)) :
  widths a = widths b -> length a = length b.
Proof.
  unfold widths. intros E. apply (f_equal (@length nat)) in E.
  now rewrite !length_map in E.
Qed.

Lemma F_linear_length x W b y : F_linear x W b = Ok y -> length y = length x.
Proof.
  unfold F_linear. destruct (_ && _); [| discriminate].
  intros E. inversion E. apply length_map.
Qed.

Lemma masked_widths (input x : list (list R)) m idx y :
  (s <-- LSTMCell.get_mask_slice input m idx ;; LSTMCell.mul_mask x s) = Ok y ->
  widths y = widths x.
Proof.
  destruct (LSTMCell.get_mask_slice input m idx) as [[q | gm] | e];
    cbn [rbind LSTMCell.mul_mask]; [| | discriminate].
  - intros E. inversion E. unfold scale. apply widths_map.
  - apply widths_mul2.
Qed.

(** The shapes of what a step returns follow from its returning. *)
Lemma gates_shapes (c : LSTMCell.t) input h_tm1 c_tm1 h_t c_t :
  LSTMCell.gates c input h_tm1 c_tm1 = Ok (h_t, c_t) ->
  (length h_t = length input /\ row_width (length (LSTMCell.W_o c)) h_t) /\
  (length c_t = length input /\ row_width (length (LSTMCell.W_f c)) c_t).
Proof.
  unfold LSTMCell.gates. cbv zeta beta. intros H.
  repeat match type of H with
         | rbind ?r _ = _ =>
             let E := fresh "E" in
             destruct r as [? | ?] eqn:E;
             [cbn [rbind] in H | discriminate H]
         end.
  inversion H. subst. split.
  - match goal with
    | Hm : mul2 (F_sigmoid ?a) _ = Ok h_t,
      Ha : add2 ?xo _ = Ok ?a,
      Hx : F_linear ?x6 (LSTMCell.W_o c) _ = Ok ?xo,
      Hk : _ = Ok ?x6 |- _ =>
        apply widths_mul2 in Hm; apply widths_add2 in Ha;
        unfold F_sigmoid in Hm; rewrite widths_map in Hm;
        pose proof (F_linear_length _ _ _ _ Hx) as Hl;
        apply widths_F_linear in Hx; apply masked_widths in Hk;
        split;
        [ rewrite (widths_length _ _ Hm), (widths_length _ _ Ha), Hl;
          exact (widths_length _ _ Hk)
        | apply (row_width_widths _ _ xo); [congruence | exact Hx] ]
    end.
  - match goal with
    | Hc : add2 ?fc _ = Ok c_t,
      Hf : mul2 (F_sigmoid ?a) c_tm1 = Ok ?fc,
      Ha : add2 ?xf _ = Ok ?a,
      Hx : F_linear ?x4 (LSTMCell.W_f c) _ = Ok ?xf,
      Hk : _ = Ok ?x4 |- _ =>
        apply widths_add2 in Hc; apply widths_mul2 in Hf;
        apply widths_add2 in Ha;
        unfold F_sigmoid in Hf; rewrite widths_map in Hf;
        pose proof (F_linear_length _ _ _ _ Hx) as Hl;
        apply widths_F_linear in Hx; apply masked_widths in Hk;
        split;
        [ rewrite (widths_length _ _ Hc), (widths_length _ _ Hf),
            (widths_length _ _ Ha), Hl;
          exact (widths_length _ _ Hk)
        | apply (row_width_widths _ _ xf); [congruence | exact Hx] ]
    end.
Qed.

(** A mask refresh that returns has assigned the masks. *)
Lemma set_dropout_masks_sets batch_size c g c' g' :
  LSTMCell.set_dropout_masks batch_size (c, g) = (Ok tt, (c', g')) ->
  has_masks c'.
Proof.
  unfold LSTMCell.set_dropout_masks, bind, LSTMCell.self, LSTMCell.assign,
    LSTMCell.sample, has_masks. cbn [fst snd].
  destruct (truthy (LSTMCell.dropout c));
    [| intros E; inversion E; discriminate].
  destruct (LSTMCell.training c);
    [| intros E; inversion E; discriminate].
  repeat match goal with
         | |- context [bernoulli3 ?d ?n ?w ?p ?g0] =>
             destruct (bernoulli3 d n w p g0) as [[? | ?] ?];
             cbn [fst snd]; [| discriminate]
         end.
  intros E. inversion E. discriminate.
Qed.

(** [forward], by the cases of its first test. *)
Lemma forward_cases input hs c g :
  LSTMCell.forward input hs (c, g)
  = match LSTMCell._input_dropout_mask c with
    | Some _ => (LSTMCell.gates c input (fst hs) (snd hs), (c, g))
    | None =>
        match LSTMCell.set_dropout_masks (size0 input) (c, g) with
        | (Ok _, (c', g')) =>
            (LSTMCell.gates c' input (fst hs) (snd hs), (c', g'))
        | (Err e, w) => (Err e, w)
        end
    end.
Proof.
  destruct hs as [h_tm1 c_tm1].
  unfold LSTMCell.forward, bind, LSTMCell.self, lift, ret. cbn [fst snd].
  destruct (LSTMCell._input_dropout_mask c); [reflexivity |].
  destruct (LSTMCell.set_dropout_masks (size0 input) (c, g))
    as [[[] | e] [c' g']]; reflexivity.
Qed.

(** What [forward] leaves behind when it returns: a cell with masks. *)
Lemma forward_leaves_masks input hs c g r :
  fst (LSTMCell.forward input hs (c, g)) = Ok r ->
  has_masks (fst (snd (LSTMCell.forward input hs (c, g)))).
Proof.
  rewrite forward_cases.
  destruct (LSTMCell._input_dropout_mask c) as [m |] eqn:Hm.
  - intros _. cbn [fst snd]. unfold has_masks. now rewrite Hm.
  - pose proof (set_dropout_masks_sets (size0 input) c g) as Hs.
    destruct (LSTMCell.set_dropout_masks (size0 input) (c, g))
      as [[[] | e] [c' g']]; cbn [fst snd]; [| discriminate].
    intros _. now apply (Hs c' g').
Qed.

(** X1. Neither [set_dropout_masks] nor [forward] ever writes a weight, a
    bias, a size, the dropout probability or the training flag of the
    cell, whatever they are called with and whether they return or raise:
    they assign the two mask attributes and nothing else. *)
Theorem cell_methods_keep_parameters (c : LSTMCell.t) g :
  (forall batch_size,
     erase_masks (fst (snd (LSTMCell.set_dropout_masks batch_size (c, g))))
     = erase_masks c) /\
  (forall input hidden_state,
     erase_masks (fst (snd (LSTMCell.forward input hidden_state (c, g))))
     = erase_masks c).
Proof.
  split.
  - intros batch_size. apply set_dropout_masks_weights.
  - intros input hidden_state. apply forward_weights.
Qed.

(** X2. Once a call of [forward] has returned, every later call of
    [forward] on the cell, with an input of whatever batch size, leaves
    the cell and the random generator as that first call left them: the
    masks are sampled once, by the first step, and reused by all later
    steps. *)
Theorem forward_reuses_masks (c : LSTMCell.t) g input hidden_state r :
  fst (LSTMCell.forward input hidden_state (c, g)) = Ok r ->
  forall input' hidden_state',
    snd (LSTMCell.forward input' hidden_state'
           (snd (LSTMCell.forward input hidden_state (c, g))))
    = snd (LSTMCell.forward input hidden_state (c, g)).
Proof.
  intros E input' hidden_state'.
  pose proof (forward_leaves_masks _ _ _ _ _ E) as Hm.
  destruct (snd (LSTMCell.forward input hidden_state (c, g))) as [c1 g1].
  cbn [fst] in Hm. unfold has_masks in Hm.
  destruct (LSTMCell._input_dropout_mask c1) as [m |] eqn:Hm1;
    [| congruence].
  now rewrite (forward_with_masks c1 g1 input' hidden_state' Hm1).
Qed.


End CellExtras.

(** X2 on a freshly constructed cell: a step of two rows, then a step of
    one row. *)
Lemma forward_reuses_masks_witness :
  snd (LSTMCell.forward Examples.x1 (Examples.h1, Examples.c1)
         (snd (LSTMCell.forward Examples.x2 (Examples.h2, Examples.c2)
                 (Examples.fresh_cell, 3%N))))
  = snd (LSTMCell.forward Examples.x2 (Examples.h2, Examples.c2)
           (Examples.fresh_cell, 3%N)).
Proof.
  apply (@forward_reuses_masks Symbolic.torch Examples.fresh_cell 3%N
           Examples.x2 (Examples.h2, Examples.c2)
           (match fst (LSTMCell.forward Examples.x2 (Examples.h2, Examples.c2)
                         (Examples.fresh_cell, 3%N)) with
            | Ok r => r
            | Err _ => ([], [])
            end)).
  vm_compute. reflexivity.
Defined.


(** ** Sampling and re-initialisation *)

Section MaskExtras.
Context {T : Torch}.
Import LSTMCell CellSpec Notions Properties.

Lemma bernoulli1_post (p : Q) n :
  forall g v g',
    bernoulli1 n p g = (Ok v, g') -> length v = n /\ Forall binary v.
Proof.
  induction n as [| n IH]; intros g v g' E.
  - cbn in E. inversion E. split; [reflexivity | constructor].
  - cbn [bernoulli1] in E.
    destruct (Qle_bool 0 p && Qle_bool p 1); [| discriminate E].
    unfold bind at 1, get in E. destruct (bernoulli g p) as [b g1].
    unfold bind at 1, put in E. unfold bind in E.
    destruct (bernoulli1 n p g1) as [[rest | e] g2] eqn:E1;
      [| discriminate E].
    unfold ret in E. inversion E. subst.
    destruct (IH _ _ _ E1) as [L B]. split; [cbn; now rewrite L |].
    constructor; [| exact B]. destruct b; [now right | now left].
Qed.

Lemma replicateM_post {S A} (m : M S A) (P : A -> Prop) :
  (forall s a s', m s = (Ok a, s') -> P a) ->
  forall n s l s',
    replicateM n m s = (Ok l, s') -> length l = n /\ Forall P l.
Proof.
  intros Hm. induction n as [| n IH]; intros s l s' E.
  - cbn in E. inversion E. split; [reflexivity | constructor].
  - cbn [replicateM] in E. unfold bind in E.
    destruct (m s) as [[a | e] s1] eqn:E1; [| discriminate E].
    destruct (replicateM n m s1) as [[rest | e] s2] eqn:E2;
      [| discriminate E].
    unfold ret in E. inversion E. subst.
    destruct (IH _ _ _ E2) as [L F]. split; [cbn; now rewrite L |].
    constructor; [exact (Hm _ _ _ E1) | exact F].
Qed.

Lemma bernoulli3_post (p : Q) d n w g m3 g' :
  bernoulli3 d n w p g = (Ok m3, g') ->
  length m3 = d /\
  Forall (fun gm => shaped n w gm /\ Forall (Forall binary) gm) m3.
Proof.
  unfold bernoulli3. apply replicateM_post. intros s gm s' E.
  destruct (replicateM_post (bernoulli1 w p)
              (fun v => length v = w /\ Forall binary v)
              (bernoulli1_post p w) n s gm s' E) as [L F].
  rewrite Forall_forall in F. split; [split; [exact L |] |].
  - apply Forall_forall. intros r Hr. exact (proj1 (F r Hr)).
  - apply Forall_forall. intros r Hr. exact (proj2 (F r Hr)).
Qed.

Lemma truthy_nonzero (q : Q) : ~ (q == 0)%Q -> truthy q = true.
Proof.
  intros Hq. unfold truthy. destruct (Qeq_bool q 0) eqn:E; [| reflexivity].
  apply Qeq_bool_iff in E. contradiction.
Qed.

(** X4. In training mode with a dropout probability other than 0, a
    refresh that returns has made both masks tensors of four gates, of
    [batch_size] rows each, as wide as the input and as the hidden state,
    whose entries are 0.0 or 1.0: the draws are kept as they are, not
    rescaled by the keep probability. *)
Theorem training_masks_sampled (c : t) g batch_size c' g' :
  training c = true -> ~ (dropout c == 0)%Q ->
  set_dropout_masks batch_size (c, g) = (Ok tt, (c', g')) ->
  exists mi mh,
    _input_dropout_mask c' = Some mi /\ _h_dropout_mask c' = Some mh /\
    sampled_mask mi batch_size (input_size c) /\
    sampled_mask mh batch_size (hidden_size c).
Proof.
  intros Ht Hd.
  unfold set_dropout_masks, bind, self, assign, sample. cbn [fst snd].
  rewrite (truthy_nonzero _ Hd), Ht.
  match goal with
  | |- context [bernoulli3 ?d ?n ?w ?p ?g0] =>
      destruct (bernoulli3 d n w p g0) as [[mi | e] g1] eqn:E1;
      cbn [fst snd]; [| discriminate]
  end.
  match goal with
  | |- context [bernoulli3 ?d ?n ?w ?p ?g0] =>
      destruct (bernoulli3 d n w p g0) as [[mh | e] g2] eqn:E2;
      cbn [fst snd]; [| discriminate]
  end.
  intros E. inversion E. subst.
  exists (MaskTensor mi), (MaskTensor mh).
  split; [reflexivity |]. split; [reflexivity |].
  split; [exact (bernoulli3_post _ _ _ _ _ _ _ E1)
         | exact (bernoulli3_post _ _ _ _ _ _ _ E2)].
Qed.

(** X5. [reset_parameters] on a cell in use, when it returns: the
    parameters keep their shapes, the forget bias is 1.0 and the other
    biases are 0.0 again, and the sizes, the dropout probability, the
    training flag and the masks are as they were: re-initialising the
    parameters does not clear the masks. *)
Theorem reset_parameters_keeps (c : t) g c' g' :
  well_shaped c ->
  reset_parameters (c, g) = (Ok tt, (c', g')) ->
  well_shaped c' /\
  (b_f c' = repeat (of_float 1) (hidden_size c) /\
   b_i c' = repeat (of_float 0) (hidden_size c) /\
   b_c c' = repeat (of_float 0) (hidden_size c) /\
   b_o c' = repeat (of_float 0) (hidden_size c)) /\
  (input_size c' = input_size c /\ hidden_size c' = hidden_size c /\
   dropout c' = dropout c /\ training c' = training c /\
   _input_dropout_mask c' = _input_dropout_mask c /\
   _h_dropout_mask c' = _h_dropout_mask c).
Proof.
  intros Hc E. split; [exact (reset_parameters_shapes _ _ _ _ Hc E) |].
  destruct (reset_parameters_post _ _ _ _ E) as [[Hf [Hi [Hcc Ho]]] Hrest].
  split; [| exact Hrest].
  destruct Hc as [[_ [_ Lbi]] [[_ [_ Lbf]] [[_ [_ Lbc]] [_ [_ Lbo]]]]].
  unfold full1 in *. rewrite Lbf in Hf. rewrite Lbi in Hi.
  rewrite Lbc in Hcc. rewrite Lbo in Ho. repeat split; assumption.
Qed.

(** [set_dropout_masks], by the cases of its tests and of the draws. *)
Lemma set_dropout_masks_cases (c : t) g batch_size :
  set_dropout_masks batch_size (c, g)
  = if truthy (dropout c) then
      if training c then
        match bernoulli3 4 batch_size (input_size c) (1 - dropout c) g with
        | (Err e, g1) => (Err e, (c, g1))
        | (Ok mi, g1) =>
            match bernoulli3 4 batch_size (hidden_size c) (1 - dropout c) g1
            with
            | (Err e, g2) =>
                (Err e,
                 (set_input_dropout_mask (Some (MaskTensor mi)) c, g2))
            | (Ok mh, g2) =>
                (Ok tt, (with_masks (MaskTensor mi) (MaskTensor mh) c, g2))
            end
        end
      else (Ok tt, (with_masks (MaskList (repeat (1 - dropout c)%Q 4))
                      (MaskList (repeat (1 - dropout c)%Q 4)) c, g))
    else (Ok tt, (with_masks (MaskList (repeat 1%Q 4))
                    (MaskList (repeat 1%Q 4)) c, g)).
Proof.
  unfold set_dropout_masks, bind, self, assign, sample.
  cbn [fst snd].
  destruct (truthy (dropout c)); [| reflexivity].
  destruct (training c); [| reflexivity].
  cbn [fst snd].
  destruct (bernoulli3 4 batch_size (input_size c) (1 - dropout c) g)
    as [[mi | e] g1]; [| reflexivity].
  cbn [fst snd].
  destruct (bernoulli3 4 batch_size (hidden_size c) (1 - dropout c) g1)
    as [[mh | e] g2]; reflexivity.
Qed.

(** X6. A refresh that returns replaces the masks altogether: started on
    two cells that differ in their masks only, from the same state of the
    random generator, it returns the same cell and the same state of the
    generator. *)
Theorem refresh_overwrites (c1 c2 : t) g batch_size :
  erase_masks c1 = erase_masks c2 ->
  fst (set_dropout_masks batch_size (c1, g)) = Ok tt ->
  set_dropout_masks batch_size (c1, g) = set_dropout_masks batch_size (c2, g).
Proof.
  intros E.
  assert (Hd : dropout c1 = dropout c2)
    by exact (f_equal dropout E).
  assert (Ht : training c1 = training c2)
    by exact (f_equal training E).
  assert (Hi : input_size c1 = input_size c2)
    by exact (f_equal input_size E).
  assert (Hh : hidden_size c1 = hidden_size c2)
    by exact (f_equal hidden_size E).
  assert (Hw : forall mi mh, with_masks mi mh c1 = with_masks mi mh c2).
  { intros mi mh.
    change (with_masks mi mh (erase_masks c1)
            = with_masks mi mh (erase_masks c2)).
    now rewrite E. }
  rewrite !set_dropout_masks_cases.
  rewrite <- Hd, <- Ht, <- Hi, <- Hh.
  destruct (truthy (dropout c1)); [| intros _; now rewrite Hw].
  destruct (training c1); [| intros _; now rewrite Hw].
  destruct (bernoulli3 4 batch_size (input_size c1) (1 - dropout c1) g)
    as [[mi | e] g1]; [| discriminate].
  destruct (bernoulli3 4 batch_size (hidden_size c1) (1 - dropout c1) g1)
    as [[mh | e] g2]; [| discriminate].
  intros _. now rewrite Hw.
Qed.

End MaskExtras.

(** X4 on the refresh that made [Examples.trained_cell]. *)
Lemma training_masks_sampled_witness :
  exists mi mh,
    LSTMCell._input_dropout_mask Examples.trained_cell = Some mi /\
    LSTMCell._h_dropout_mask Examples.trained_cell = Some mh /\
    Properties.sampled_mask mi 2 2 /\ Properties.sampled_mask mh 2 2.
Proof.
  apply (@training_masks_sampled Symbolic.torch Examples.fresh_cell 3%N 2
           Examples.trained_cell
           (snd (snd (LSTMCell.set_dropout_masks 2 (Examples.fresh_cell, 3%N))))).
  - reflexivity.
  - intros H. discriminate H.
  - vm_compute. reflexivity.
Defined.

(** X5 on a cell with sampled masks. *)
Lemma reset_parameters_keeps_witness :
  let c' := fst (snd (LSTMCell.reset_parameters (Examples.trained_cell, 5%N))) in
  CellSpec.well_shaped c' /\
  (LSTMCell.b_f c' = repeat (of_float 1) 2 /\
   LSTMCell.b_i c' = repeat (of_float 0) 2 /\
   LSTMCell.b_c c' = repeat (of_float 0) 2 /\
   LSTMCell.b_o c' = repeat (of_float 0) 2) /\
  (LSTMCell.input_size c' = 2 /\ LSTMCell.hidden_size c' = 2 /\
   LSTMCell.dropout c' = 1 # 2 /\ LSTMCell.training c' = true /\
   LSTMCell._input_dropout_mask c' = Some Examples.sampled_input_mask /\
   LSTMCell._h_dropout_mask c' = Some Examples.sampled_h_mask).
Proof.
  cbv zeta.
  apply (@reset_parameters_keeps Symbolic.torch Examples.trained_cell 5%N
           (fst (snd (LSTMCell.reset_parameters (Examples.trained_cell, 5%N))))
           (snd (snd (LSTMCell.reset_parameters (Examples.trained_cell, 5%N))))).
  - well_shaped_by_computation.
  - vm_compute. reflexivity.
Defined.

(** X6 on a fresh cell and the same cell with masks of an earlier batch. *)
Lemma refresh_overwrites_witness :
  LSTMCell.set_dropout_masks 1 (Examples.fresh_cell, 9%N)
  = LSTMCell.set_dropout_masks 1 (Examples.trained_cell, 9%N).
Proof.
  apply (@refresh_overwrites Symbolic.torch Examples.fresh_cell
           Examples.trained_cell 9%N 1).
  - reflexivity.
  - vm_compute. reflexivity.
Defined.

(** ** The construction of a layer *)

Section LayerInitExtras.
Context {T : Torch}.
Import Notions Properties.

Lemma cell_init_constructed input_size hidden_size dropout g c g' :
  LSTMCell.__init__ input_size hidden_size dropout g = (Ok c, g') ->
  constructed_cell input_size hidden_size dropout c.
Proof.
  intros E0.
  destruct (init_well_shaped _ _ _ _ _ _ E0) as (Hc & Hi & Hh).
  revert E0. unfold LSTMCell.__init__.
  match goal with
  | |- context [LSTMCell.reset_parameters ?s] =>
      destruct (LSTMCell.reset_parameters s) as [[[] | e] [c' g1]] eqn:E
  end; [| discriminate].
  intros H. inversion H. subst c' g1.
  apply reset_parameters_post in E.
  destruct E as [[Hbf [Hbi [Hbc Hbo]]] (_ & _ & Pd & Pt & Pmi & Pmh)].
  cbn in Hbf, Hbi, Hbc, Hbo, Pd, Pt, Pmi, Pmh.
  unfold LSTMCell.alloc1, full1 in *.
  rewrite repeat_length in Hbf, Hbi, Hbc, Hbo.
  unfold constructed_cell.
  repeat (split; [assumption |]). assumption.
Qed.

Lemma cell_init_returns input_size hidden_size dropout g :
  0 < input_size -> 0 < hidden_size ->
  exists c g', LSTMCell.__init__ input_size hidden_size dropout g = (Ok c, g').
Proof.
  intros Hi Hh. unfold LSTMCell.__init__.
  match goal with
  | |- context [LSTMCell.reset_parameters (?c0, g)] =>
      assert (Hc0 : CellSpec.well_shaped c0)
        by (unfold CellSpec.well_shaped; cbn;
            repeat split; first [ apply shaped_alloc2 | apply repeat_length ]);
      destruct (reset_parameters_ok c0 g Hc0 Hi Hh) as (c' & g' & E);
      rewrite E
  end.
  now exists c', g'.
Qed.

Lemma construct_cells_post n input_size hidden_size dropout :
  forall g cells g',
    LSTM.construct_cells n input_size hidden_size dropout g = (Ok cells, g') ->
    length cells = n /\
    Forall (constructed_cell input_size hidden_size dropout) cells.
Proof.
  induction n as [| n IH]; intros g cells g' E; cbn in E.
  - inversion E. split; [reflexivity | constructor].
  - unfold bind in E.
    destruct (LSTMCell.__init__ input_size hidden_size dropout g)
      as [[c | e] g1] eqn:E1; [| discriminate E].
    destruct (LSTM.construct_cells n input_size hidden_size dropout g1)
      as [[rest | e] g2] eqn:E2; [| discriminate E].
    inversion E. subst. destruct (IH _ _ _ E2) as [L F].
    split; [cbn; now rewrite L |].
    constructor; [exact (cell_init_constructed _ _ _ _ _ _ E1) | exact F].
Qed.

Lemma construct_cells_returns n input_size hidden_size dropout :
  0 < input_size -> 0 < hidden_size ->
  forall g, exists cells g',
    LSTM.construct_cells n input_size hidden_size dropout g = (Ok cells, g').
Proof.
  intros Hi Hh. induction n as [| n IH]; intros g; cbn.
  - now exists [], g.
  - destruct (cell_init_returns input_size hidden_size dropout g Hi Hh)
      as (c & g1 & E1).
    destruct (IH g1) as (rest & g2 & E2).
    exists (c :: rest), g2. unfold bind. now rewrite E1, E2.
Qed.

(** X7. A layer that [LSTM.__init__] returns stores its four arguments as
    they were given and is in training mode; it has two cells when it is
    bidirectional and one when it is not, and every cell is a freshly
    constructed [LSTMCell] of the layer's sizes and dropout probability:
    parameters of the shapes of these sizes, forget bias 1.0, other biases
    0.0, no masks yet, training mode. *)
Theorem layer_init_structure input_size hidden_size bidirectional dropout
    g l g' :
  LSTM.__init__ input_size hidden_size bidirectional dropout g = (Ok l, g') ->
  LSTM.input_size l = input_size /\
  LSTM.hidden_size l = hidden_size /\
  LSTM.bidirectional l = bidirectional /\
  LSTM.dropout l = dropout /\
  LSTM.training l = true /\
  length (LSTM.lstm_cells l) = (if bidirectional then 2 else 1) /\
  Forall (constructed_cell input_size hidden_size dropout)
    (LSTM.lstm_cells l).
Proof.
  unfold LSTM.__init__, bind. intros E.
  destruct (LSTM.construct_cells _ input_size hidden_size dropout g)
    as [[cells | e] g1] eqn:E1; [| discriminate E].
  inversion E. subst. cbn.
  destruct (construct_cells_post _ _ _ _ _ _ _ E1) as [L F].
  repeat (split; [first [reflexivity | assumption] |]). assumption.
Qed.

(** X8. With positive sizes [LSTM.__init__] returns a layer, whatever the
    dropout probability and the direction flag are: like the cell, the
    layer validates none of its arguments. *)
Theorem layer_init_returns input_size hidden_size bidirectional dropout g :
  0 < input_size -> 0 < hidden_size ->
  exists l g',
    LSTM.__init__ input_size hidden_size bidirectional dropout g
    = (Ok l, g').
Proof.
  intros Hi Hh. unfold LSTM.__init__, bind.
  destruct (construct_cells_returns (if bidirectional then 2 else 1)
              input_size hidden_size dropout Hi Hh g) as (cells & g' & E).
  rewrite E. eexists _, _. reflexivity.
Qed.

End LayerInitExtras.

(** X7 on the construction of [LSTM(2, 2, bidirectional=True, dropout=0.5)]. *)
Lemma layer_init_structure_witness :
  LSTM.input_size Examples.bi_layer = 2 /\
  LSTM.hidden_size Examples.bi_layer = 2 /\
  LSTM.bidirectional Examples.bi_layer = true /\
  LSTM.dropout Examples.bi_layer = 1 # 2 /\
  LSTM.training Examples.bi_layer = true /\
  length (LSTM.lstm_cells Examples.bi_layer) = 2 /\
  Forall (Properties.constructed_cell 2 2 (1 # 2))
    (LSTM.lstm_cells Examples.bi_layer).
Proof.
  apply (@layer_init_structure Symbolic.torch 2 2 true (1 # 2) 7%N
           Examples.bi_layer
           (snd (LSTM.__init__ (T := Symbolic.torch) 2 2 true (1 # 2) 7%N))).
  vm_compute. reflexivity.
Defined.

(** X8 on sizes 3 and 2, a dropout probability of 1.5 and one direction. *)
Lemma layer_init_returns_witness :
  exists l g',
    LSTM.__init__ (T := Symbolic.torch) 3 2 false (3 # 2) 7%N = (Ok l, g').
Proof.
  apply (@layer_init_returns Symbolic.torch 3 2 false (3 # 2) 7%N); lia.
Defined.

(** ** The rows of a packed sequence through the recurrence *)

Section SliceFacts.
Context {T : Torch}.

Lemma t_slice_py_slice {A} (t : list A) start stop r :
  t_slice t start stop = Ok r -> r = py_slice t start stop.
Proof.
  unfold t_slice. destruct (py_slice t start stop); [discriminate |].
  intros E. now inversion E.
Qed.

(** [t[a : a + b]] inside the tensor has [b] rows. *)
Lemma py_slice_window {A} (t : list A) a b :
  a + b <= length t ->
  length (py_slice t (Some (Z.of_nat a)) (Some (Z.of_nat (a + b)))) = b.
Proof.
  intros H. unfold py_slice, py_bound.
  destruct (Z.ltb_spec (Z.of_nat a) 0); [lia |].
  destruct (Z.ltb_spec (Z.of_nat (a + b)) 0); [lia |].
  rewrite !Z.min_l by lia.
  rewrite length_firstn, length_skipn. lia.
Qed.

(** [t[off - b : off]] inside the tensor has [b] rows. *)
Lemma py_slice_window_back {A} (t : list A) (off : Z) b :
  (0 <= off - Z.of_nat b)%Z -> (off <= Z.of_nat (length t))%Z ->
  length (py_slice t (Some (off - Z.of_nat b)%Z) (Some off)) = b.
Proof.
  intros H0 H1. unfold py_slice, py_bound.
  destruct (Z.ltb_spec (off - Z.of_nat b) 0); [lia |].
  destruct (Z.ltb_spec off 0); [lia |].
  rewrite !Z.min_l by lia.
  rewrite length_firstn, length_skipn. lia.
Qed.

Lemma list_sum_rev (l : list nat) : list_sum (rev l) = list_sum l.
Proof.
  induction l as [| a l IH]; [reflexivity |].
  cbn [rev]. rewrite list_sum_app, IH. unfold list_sum.
  cbn [fold_right]. lia.
Qed.

Lemma length_concat_rev {A} (l : list (list A)) :
  length (concat (rev l)) = length (concat l).
Proof. now rewrite !length_concat, map_rev, list_sum_rev. Qed.

Lemma length_cat1 n (ts : list (list (list R))) r :
  Forall (fun o => length o = n) ts -> cat1 ts = Ok r -> length r = n.
Proof.
  revert r. induction ts as [| t rest IH]; intros r H E;
    [cbn in E; discriminate E |].
  inversion H as [| ? ? Ht Hrest]. subst.
  destruct rest as [| t' rest'].
  - cbn in E. now inversion E.
  - change (cat1 (t :: t' :: rest'))
      with (r0 <-- cat1 (t' :: rest') ;;
            if length t =? length r0 then Ok (map2 (@app R) t r0)
            else Err RuntimeError) in E.
    destruct (cat1 (t' :: rest')) as [r' |] eqn:E';
      [| cbn in E; discriminate E].
    cbn [rbind] in E.
    destruct (Nat.eqb_spec (length t) (length r')) as [El |];
      [| discriminate E].
    inversion E. unfold map2. rewrite length_map, length_combine.
    rewrite <- El. lia.
Qed.

Lemma stack_same (ts : list (list (list R))) r : stack ts = Ok r -> r = ts.
Proof.
  unfold stack. destruct ts as [| t rest]; [discriminate |].
  destruct (forallb _ rest); [| discriminate]. intros E. now inversion E.
Qed.
End SliceFacts.

Section RecurrentRows.
Context {T : Torch}.
Context {S : Type}.
Import Notions Logic Properties.
Variable __debug__ : bool.
Variable I : S -> Prop.

Ltac pure_steps :=
  repeat (eapply hoare_bind;
          [ apply hoare_lift with (Q := fun _ => True); trivial
          | intros ? _ ]).

Lemma VariableRecurrent_loop_rows inner input weight :
  step_rows I inner ->
  forall batch_sizes input_offset last_batch_size hiddens hidden output,
    hoare I (rnn.VariableRecurrent_loop inner input weight batch_sizes
               input_offset last_batch_size hiddens hidden output)
      (fun r => input_offset + list_sum batch_sizes <= length input ->
                length (concat (snd r))
                = length (concat output) + list_sum batch_sizes).
Proof.
  intros Hinner. induction batch_sizes as [| batch_size rest IH];
    intros input_offset last_batch_size hiddens hidden output;
    cbn [rnn.VariableRecurrent_loop].
  - apply hoare_ret. cbn. lia.
  - eapply hoare_bind
      with (P := fun si => input_offset + batch_size <= length input ->
                           length si = batch_size).
    { apply hoare_lift. intros si E Hle. apply t_slice_py_slice in E.
      subst si. now apply py_slice_window. }
    intros step_input Hsi.
    eapply hoare_bind with (P := fun _ => True).
    { apply hoare_if; [pure_steps |]; now apply hoare_ret. }
    intros [hiddens' hidden'] _.
    eapply hoare_bind; [apply Hinner |].
    intros h' Hh'. cbv beta. eapply hoare_weaken; [apply IH |].
    intros r Hr Hle. cbn [list_sum fold_right] in *.
    change (fold_right Nat.add 0 rest) with (list_sum rest) in *.
    rewrite Hr by lia. rewrite concat_app, length_app. cbn [concat].
    rewrite app_nil_r, Hh', Hsi by lia. lia.
Qed.

Lemma VariableRecurrent_rows inner batch_sizes :
  step_rows I inner ->
  direction_rows I batch_sizes
    (fun input hidden weight =>
       rnn.VariableRecurrent __debug__ inner input weight batch_sizes hidden).
Proof.
  intros Hinner input hidden weight. unfold rnn.VariableRecurrent.
  pure_steps.
  eapply hoare_bind;
    [ apply (VariableRecurrent_loop_rows inner input weight Hinner) |].
  intros [[hiddens' hidden'] output] Hout. cbn [snd] in Hout.
  pure_steps.
  eapply hoare_bind; [apply (py_assert_hoare __debug__ I) |]. intros _ _.
  eapply hoare_bind.
  { apply hoare_lift
      with (Q := fun out => list_sum batch_sizes = length input ->
                            length out = length input).
    intros out0 E Hsum. apply cat0_concat in E. subst out0.
    rewrite Hout by (cbn; lia). cbn. lia. }
  intros out Ho. now apply hoare_ret.
Qed.

Lemma VariableRecurrentReverse_loop_rows inner input weight :
  step_rows I inner ->
  forall batch_sizes input_offset last_batch_size initial_hidden hidden
         output,
    hoare I (rnn.VariableRecurrentReverse_loop inner input weight batch_sizes
               input_offset last_batch_size initial_hidden hidden output)
      (fun r => (Z.of_nat (list_sum batch_sizes) <= input_offset)%Z ->
                (input_offset <= Z.of_nat (length input))%Z ->
                length (concat (snd r))
                = length (concat output) + list_sum batch_sizes).
Proof.
  intros Hinner. induction batch_sizes as [| batch_size rest IH];
    intros input_offset last_batch_size initial_hidden hidden output;
    cbn [rnn.VariableRecurrentReverse_loop].
  - apply hoare_ret. cbn. lia.
  - eapply hoare_bind with (P := fun _ => True).
    { apply hoare_if; [pure_steps |]; now apply hoare_ret. }
    intros hidden' _.
    eapply hoare_bind
      with (P := fun si => (0 <= input_offset - Z.of_nat batch_size)%Z ->
                           (input_offset <= Z.of_nat (length input))%Z ->
                           length si = batch_size).
    { apply hoare_lift. intros si E H0 H1. apply t_slice_py_slice in E.
      subst si. now apply py_slice_window_back. }
    intros step_input Hsi.
    eapply hoare_bind; [apply Hinner |].
    intros h' Hh'. cbv beta. eapply hoare_weaken; [apply IH |].
    intros r Hr H0 H1. cbn [list_sum fold_right] in *.
    change (fold_right Nat.add 0 rest) with (list_sum rest) in *.
    rewrite Hr by lia. rewrite concat_app, length_app. cbn [concat].
    rewrite app_nil_r, Hh', Hsi by lia. lia.
Qed.

Lemma VariableRecurrentReverse_rows inner batch_sizes :
  step_rows I inner ->
  direction_rows I batch_sizes
    (fun input hidden weight =>
       rnn.VariableRecurrentReverse inner input weight batch_sizes hidden).
Proof.
  intros Hinner input hidden weight. unfold rnn.VariableRecurrentReverse.
  cbv zeta. pure_steps.
  eapply hoare_bind;
    [ apply (VariableRecurrentReverse_loop_rows inner input weight Hinner) |].
  intros [hidden' output] Hout. cbn [snd] in Hout.
  eapply hoare_bind.
  { apply hoare_lift
      with (Q := fun out => list_sum batch_sizes = length input ->
                            length out = length input).
    intros out0 E Hsum. apply cat0_concat in E. subst out0.
    rewrite length_concat_rev, list_sum_rev in *.
    unfold size0 in Hout. rewrite Hout by lia. cbn. lia. }
  intros out Ho. now apply hoare_ret.
Qed.

Lemma variable_recurrent_factory_rows batch_sizes inner reverse :
  step_rows I inner ->
  direction_rows I batch_sizes
    (rnn.variable_recurrent_factory __debug__ batch_sizes inner reverse).
Proof.
  intros Hinner input hidden weight. unfold rnn.variable_recurrent_factory.
  destruct reverse.
  - now apply VariableRecurrentReverse_rows.
  - now apply VariableRecurrent_rows.
Qed.

Lemma StackedRNN_directions_rows batch_sizes inners :
  Forall (direction_rows I batch_sizes) inners ->
  forall j input hidden weight next_hidden all_output,
    hoare I (rnn.StackedRNN_directions inners j input hidden weight
               next_hidden all_output)
      (fun r => length (fst r) = length next_hidden + length inners /\
                (list_sum batch_sizes = length input ->
                 Forall (fun o => length o = length input) all_output ->
                 Forall (fun o => length o = length input) (snd r))).
Proof.
  induction inners as [| inner rest IH];
    intros Hin j input hidden weight next_hidden all_output;
    cbn [rnn.StackedRNN_directions].
  - apply hoare_ret. cbn. split; [lia | trivial].
  - inversion Hin as [| ? ? Hinner Hrest]. subst.
    pure_steps.
    eapply hoare_bind; [apply Hinner |].
    intros [hy output] Hout. cbn [snd] in Hout.
    eapply hoare_weaken; [apply (IH Hrest) |].
    intros r [Hl Hr]. split.
    + rewrite Hl, length_app. cbn. lia.
    + intros Hsum Hall. apply Hr; [exact Hsum |].
      apply Forall_app. split; [exact Hall |].
      constructor; [now apply Hout | constructor].
Qed.

(** What [StackedRNN] returns: a final state with one entry per direction
    and, for an input that holds the rows the batch sizes announce, one
    row of output per row of input. *)
Lemma StackedRNN_rows batch_sizes inners input hidden weight :
  Forall (direction_rows I batch_sizes) inners ->
  hoare I (rnn.StackedRNN __debug__ inners input hidden weight)
    (fun r => (length (fst (fst r)) = length inners /\
               length (snd (fst r)) = length inners) /\
              (list_sum batch_sizes = length input ->
               length (snd r) = length input)).
Proof.
  intros Hin. unfold rnn.StackedRNN.
  eapply hoare_bind; [apply (py_assert_hoare __debug__ I) |]. intros _ _.
  eapply hoare_bind;
    [ apply (StackedRNN_directions_rows batch_sizes inners Hin) |].
  intros [next_hidden all_output] [Hlen Hall]. cbn [fst snd length plus] in *.
  eapply hoare_bind.
  { apply hoare_lift
      with (Q := fun out => list_sum batch_sizes = length input ->
                            length out = length input).
    intros out0 E Hsum.
    exact (length_cat1 _ _ _ (Hall Hsum (Forall_nil _)) E). }
  intros out Ho.
  eapply hoare_bind.
  { apply hoare_lift with (Q := fun h => length h = length inners).
    intros h E. apply stack_same in E. subst h. now rewrite length_map. }
  intros next_h Hh.
  eapply hoare_bind.
  { apply hoare_lift with (Q := fun c => length c = length inners).
    intros c E. apply stack_same in E. subst c. now rewrite length_map. }
  intros next_c Hc. apply hoare_ret. cbn [fst snd]. now repeat split.
Qed.

End RecurrentRows.

(** ** LSTM.forward, further *)

Section LayerRows.
Context {T : Torch}.
Import Notions Logic Properties.
Variable __debug__ : bool.

Lemma forward_rows input hs c g r :
  fst (LSTMCell.forward input hs (c, g)) = Ok r ->
  length (fst r) = length input.
Proof.
  rewrite forward_cases. destruct r as [h_t c_t].
  destruct (LSTMCell._input_dropout_mask c).
  - cbn [fst]. intros H. exact (proj1 (proj1 (gates_shapes _ _ _ _ _ _ H))).
  - destruct (LSTMCell.set_dropout_masks (size0 input) (c, g))
      as [[[] | e] [c' g']]; cbn [fst snd]; [| discriminate].
    intros H. exact (proj1 (proj1 (gates_shapes _ _ _ _ _ _ H))).
Qed.

(** A step of a cell of the layer returns as many rows as it is given and
    keeps the weight state, on every layer. *)
Lemma cell_lambda_step_rows l0 k :
  step_rows (keeps_weights l0) (LSTM.cell_lambda k).
Proof.
  intros x h weight. unfold LSTM.cell_lambda.
  destruct weight; cbv beta iota; [| apply hoare_raise].
  intros s Hs. split.
  - unfold keeps_weights. etransitivity; [| exact Hs].
    apply on_cell_weight_state. apply forward_weights.
  - destruct s as [l g]. unfold LSTM.on_cell. cbn [fst snd].
    destruct (nth_error (LSTM.lstm_cells l) k) as [c |] eqn:Hk;
      [| discriminate].
    pose proof (forward_rows x h c g) as Hrow.
    destruct (LSTMCell.forward x h (c, g)) as [r [c' g']].
    cbn [fst] in *. intros h' E. subst r. now apply Hrow.
Qed.

Lemma forward_rows_hoare l0 p hidden_state :
  hoare (keeps_weights l0)
    (LSTM.forward __debug__ (LSTM.Packed p) hidden_state)
    (fun r =>
       (length (fst (snd r)) = (if LSTM.bidirectional l0 then 2 else 1) /\
        length (snd (snd r)) = (if LSTM.bidirectional l0 then 2 else 1)) /\
       (list_sum (LSTM.batch_sizes p) = length (LSTM.data p) ->
        length (LSTM.data (fst r)) = length (LSTM.data p))).
Proof.
  unfold LSTM.forward.
  eapply hoare_bind;
    [apply hoare_lift with (Q := fun _ => True); trivial |].
  intros max_batch_size _.
  eapply hoare_bind; [apply self_hoare |]. intros l1 _.
  eapply hoare_bind; [apply set_all_dropout_masks_hoare |]. intros _ _.
  eapply hoare_bind; [apply self_hoare |]. intros l2 Hl2.
  destruct (weight_state_config l2 l0 Hl2) as [Hh Hb].
  cbv zeta. rewrite Hb.
  eapply hoare_bind.
  - apply (StackedRNN_rows __debug__ (keeps_weights l0)
             (LSTM.batch_sizes p)).
    destruct (LSTM.bidirectional l0);
      repeat (apply Forall_cons;
              [ apply variable_recurrent_factory_rows;
                apply cell_lambda_step_rows |]);
      apply Forall_nil.
  - intros [next_hidden output] [Hdirs Hout]. cbn [fst snd] in Hdirs, Hout.
    apply hoare_ret. cbn [fst snd LSTM.batch_sizes LSTM.data].
    split; [| exact Hout].
    destruct (LSTM.bidirectional l0); exact Hdirs.
Qed.

Lemma set_cell_cells l pre c post c' :
  LSTM.lstm_cells l = pre ++ c :: post ->
  LSTM.lstm_cells (LSTM.set_cell (length pre) c' l) = pre ++ c' :: post.
Proof.
  intros Hcells. unfold LSTM.set_cell. cbn [LSTM.lstm_cells]. rewrite Hcells.
  rewrite firstn_app, firstn_all, Nat.sub_diag, app_nil_r.
  rewrite skipn_app, skipn_all2 by lia.
  replace (length pre + 1 - length pre) with 1 by lia. reflexivity.
Qed.

(** When the refresh of the masks returns, every cell has masks. *)
Lemma set_all_masks_assigned max_batch_size post :
  forall pre l g l' g',
    LSTM.lstm_cells l = pre ++ post ->
    Forall has_masks pre ->
    LSTM.set_all_dropout_masks (length post) (length pre) max_batch_size
      (l, g) = (Ok tt, (l', g')) ->
    Forall has_masks (LSTM.lstm_cells l').
Proof.
  induction post as [| c post IH]; intros pre l g l' g' Hcells Hpre.
  - cbn. intros E. inversion E. subst. rewrite Hcells, app_nil_r.
    exact Hpre.
  - cbn [LSTM.set_all_dropout_masks length]. unfold bind.
    assert (Hk : nth_error (LSTM.lstm_cells l) (length pre) = Some c).
    { rewrite Hcells, nth_error_app2, Nat.sub_diag by lia. reflexivity. }
    unfold LSTM.on_cell at 1. cbn [fst snd]. rewrite Hk.
    pose proof (set_dropout_masks_sets max_batch_size c g) as Hset.
    destruct (LSTMCell.set_dropout_masks max_batch_size (c, g))
      as [[[] | e] [c1 g1]]; [| discriminate].
    specialize (Hset c1 g1 eq_refl).
    specialize (IH (pre ++ [c1]) (LSTM.set_cell (length pre) c1 l) g1 l' g').
    rewrite length_app in IH. cbn [length] in IH.
    intros E. apply IH; [| | exact E].
    + rewrite (set_cell_cells l pre c post c1 Hcells).
      now rewrite <- app_assoc.
    + apply Forall_app. split; [exact Hpre | now constructor].
Qed.

(** In inference mode a refresh returns and draws nothing. *)
Lemma set_dropout_masks_inference_state batch_size c g :
  LSTMCell.training c = false ->
  exists c', LSTMCell.set_dropout_masks batch_size (c, g) = (Ok tt, (c', g)).
Proof.
  intros Ht. rewrite set_dropout_masks_cases, Ht.
  destruct (truthy (LSTMCell.dropout c)); eexists; reflexivity.
Qed.

Lemma set_all_inference max_batch_size post :
  forall pre l g,
    LSTM.lstm_cells l = pre ++ post ->
    Forall (fun c => LSTMCell.training c = false) post ->
    exists l',
      LSTM.set_all_dropout_masks (length post) (length pre) max_batch_size
        (l, g) = (Ok tt, (l', g)).
Proof.
  induction post as [| c post IH]; intros pre l g Hcells Ht.
  - cbn. now exists l.
  - inversion Ht as [| ? ? Hc Hpost]. subst.
    cbn [LSTM.set_all_dropout_masks length]. unfold bind.
    assert (Hk : nth_error (LSTM.lstm_cells l) (length pre) = Some c).
    { rewrite Hcells, nth_error_app2, Nat.sub_diag by lia. reflexivity. }
    unfold LSTM.on_cell at 1. cbn [fst snd]. rewrite Hk.
    destruct (set_dropout_masks_inference_state max_batch_size c g Hc)
      as [c1 E1].
    rewrite E1.
    specialize (IH (pre ++ [c1]) (LSTM.set_cell (length pre) c1 l) g).
    rewrite length_app in IH. cbn [length] in IH.
    apply IH; [| exact Hpost].
    rewrite (set_cell_cells l pre c post c1 Hcells).
    now rewrite <- app_assoc.
Qed.

(** X9. [LSTM.forward] never writes a weight, a bias or a configuration
    attribute of the layer or of its cells: whatever the input and the
    initial state are, and whether the call returns or raises, the layer
    it leaves differs from the layer it started on in the masks of the
    cells at most. *)
Theorem forward_keeps_weights (l : LSTM.t) g input hidden_state :
  weight_state
    (fst (snd (LSTM.forward __debug__ input hidden_state (l, g))))
  = weight_state l.
Proof.
  destruct input as [p | x]; [| reflexivity].
  exact (proj1 (forward_rows_hoare l p hidden_state (l, g) eq_refl)).
Qed.


(** X11. The final state that [forward] returns has one entry per
    direction in its hidden part and in its cell part: two for a
    bidirectional layer, one for a unidirectional one. *)
Theorem forward_final_state_directions (l : LSTM.t) g p hidden_state out
    h_n c_n :
  fst (LSTM.forward __debug__ (LSTM.Packed p) hidden_state (l, g))
  = Ok (out, (h_n, c_n)) ->
  length h_n = (if LSTM.bidirectional l then 2 else 1) /\
  length c_n = (if LSTM.bidirectional l then 2 else 1).
Proof.
  intros E.
  destruct (forward_rows_hoare l p hidden_state (l, g) eq_refl) as [_ H].
  specialize (H _ E). cbn [fst snd] in H. exact (proj1 H).
Qed.

(** X12. All that a call of [forward] on a packed input changes is what
    its refresh of the masks changes: the layer and the random generator
    are left as [set_dropout_masks(max_batch_size)] on every cell leaves
    them, max_batch_size being the first batch size, and as they were
    when there is no first batch size, where the call raises at
    [batch_sizes[0]]. The recurrence itself assigns nothing and draws
    nothing, whether it returns or raises. *)
Theorem forward_state_is_refresh (l : LSTM.t) g p hidden_state :
  snd (LSTM.forward __debug__ (LSTM.Packed p) hidden_state (l, g))
  = match LSTM.batch_sizes p with
    | [] => (l, g)
    | max_batch_size :: _ =>
        snd (LSTM.set_all_dropout_masks (length (LSTM.lstm_cells l)) 0
               max_batch_size (l, g))
    end.
Proof.
  unfold LSTM.forward, bind, lift, LSTM.self, py_index.
  destruct (LSTM.batch_sizes p) as [| max_batch_size rest] eqn:Hp;
    [reflexivity |].
  cbn [nth_error fst snd].
  pose proof (set_all_masks_assigned max_batch_size (LSTM.lstm_cells l) []
                l g) as Hmasks.
  cbn [length app] in Hmasks.
  destruct (LSTM.set_all_dropout_masks (length (LSTM.lstm_cells l)) 0
              max_batch_size (l, g)) as [[[] | e] [l' g']];
    [| reflexivity].
  specialize (Hmasks l' g' eq_refl (Forall_nil _) eq_refl).
  cbn [fst snd].
  match goal with
  | |- context [rnn.StackedRNN __debug__ _ ?inp ?hs _ (l', g')] =>
      destruct (forward_tail_frame __debug__ l' (max_batch_size :: rest)
                  inp hs Hmasks) as [r Hr]
  end.
  rewrite (Hr g').
  destruct r as [[next_hidden output] | e]; reflexivity.
Qed.

(** X13. A call of [forward] on a layer whose cells are all in inference
    mode leaves the random generator as it found it, whatever the dropout
    probability, the input and the outcome of the call are. *)
Theorem forward_inference_keeps_generator (l : LSTM.t) g input hidden_state :
  Forall (fun c => LSTMCell.training c = false) (LSTM.lstm_cells l) ->
  snd (snd (LSTM.forward __debug__ input hidden_state (l, g))) = g.
Proof.
  intros Ht. destruct input as [p | x]; [| reflexivity].
  unfold LSTM.forward, bind, lift, LSTM.self, py_index.
  cbn [fst snd].
  destruct (nth_error (LSTM.batch_sizes p) 0) as [max_batch_size |];
    [| reflexivity].
  destruct (set_all_inference max_batch_size (LSTM.lstm_cells l) [] l g
              eq_refl Ht) as [l' E].
  pose proof (set_all_masks_assigned max_batch_size (LSTM.lstm_cells l) []
                l g l' g eq_refl (Forall_nil _) E) as Hmasks.
  cbn [length app] in E. rewrite E. cbn [fst snd].
  match goal with
  | |- context [rnn.StackedRNN __debug__ _ ?inp ?hs _ (l', g)] =>
      destruct (forward_tail_frame __debug__ l' (LSTM.batch_sizes p)
                  inp hs Hmasks) as [r Hr]
  end.
  rewrite (Hr g).
  destruct r as [[next_hidden output] | e]; reflexivity.
Qed.

(** X14. With Python's assertions enabled, [forward] on a unidirectional
    layer never returns. It passes [weight=[[], []]], two entries, to a
    [StackedRNN] of one direction, whose first statement asserts that the
    weights are as many as the directions: once the masks are refreshed
    the call raises AssertionError; when the refresh raises, that
    exception is the outcome. *)
Theorem forward_unidirectional_asserts (l : LSTM.t) g data max_batch_size
    rest hidden_state :
  LSTM.bidirectional l = false ->
  fst (LSTM.forward true
         (LSTM.Packed (LSTM.mkPacked data (max_batch_size :: rest)))
         hidden_state (l, g))
  = match fst (LSTM.set_all_dropout_masks (length (LSTM.lstm_cells l)) 0
                 max_batch_size (l, g)) with
    | Ok _ => Err AssertionError
    | Err e => Err e
    end.
Proof.
  intros Hb.
  unfold LSTM.forward, bind, lift, LSTM.self, py_index.
  cbn [nth_error fst snd LSTM.batch_sizes LSTM.data].
  destruct (set_all_dropout_masks_hoare l
              (length (LSTM.lstm_cells l)) 0 max_batch_size (l, g) eq_refl)
    as [Hinv _].
  destruct (LSTM.set_all_dropout_masks _ 0 max_batch_size (l, g))
    as [[[] | e] [l' g']]; [| reflexivity].
  cbn [snd] in Hinv. unfold keeps_weights in Hinv. cbn [fst] in Hinv.
  destruct (weight_state_config l' l Hinv) as [_ Hb'].
  cbn [fst snd]. rewrite Hb', Hb. reflexivity.
Qed.

End LayerRows.


(** X11 on the same call. *)
Lemma forward_final_state_directions_witness :
  length (fst (snd Examples.bi_output)) = 2 /\
  length (snd (snd Examples.bi_output)) = 2.
Proof.
  apply (@forward_final_state_directions Symbolic.torch true Examples.bi_layer
           3%N Examples.packed3 None (fst Examples.bi_output)
           (fst (snd Examples.bi_output)) (snd (snd Examples.bi_output))).
  vm_compute. reflexivity.
Defined.

(** X13 on a bidirectional layer with a dropout probability of 0.5 after
    [eval()]. *)
Lemma forward_inference_keeps_generator_witness :
  snd (snd (LSTM.forward true (LSTM.Packed Examples.packed3) None
              (LSTM.mk 2 2 true (1 # 2)
                 [Examples.eval_cell; Examples.eval_cell] false, 3%N)))
  = 3%N.
Proof.
  apply (@forward_inference_keeps_generator Symbolic.torch true
           (LSTM.mk 2 2 true (1 # 2)
              [Examples.eval_cell; Examples.eval_cell] false)
           3%N (LSTM.Packed Examples.packed3) None).
  repeat (constructor; [reflexivity |]). constructor.
Defined.

(** X14 on a unidirectional layer just constructed: the refresh returns and
    the call raises AssertionError. *)
Lemma forward_unidirectional_asserts_witness :
  fst (LSTM.forward true (LSTM.Packed Examples.packed3) None
         (Examples.uni_layer, 3%N))
  = Err AssertionError.
Proof.
  exact (@forward_unidirectional_asserts Symbolic.torch Examples.uni_layer 3%N
           (LSTM.data Examples.packed3) 2 [1] None eq_refl).
Defined.

(** ** The masks that earlier calls left *)

Section StaleMasks.
Context {T : Torch}.
Import Notions Logic Properties.
Variable __debug__ : bool.

(** The refresh of a cell reads the configuration of the cell, never its
    masks. *)
Lemma refresh_of_weights (c1 c2 : LSTMCell.t) g batch_size :
  erase_masks c1 = erase_masks c2 ->
  fst (LSTMCell.set_dropout_masks batch_size (c1, g))
  = fst (LSTMCell.set_dropout_masks batch_size (c2, g)) /\
  (fst (LSTMCell.set_dropout_masks batch_size (c1, g)) = Ok tt ->
   LSTMCell.set_dropout_masks batch_size (c1, g)
   = LSTMCell.set_dropout_masks batch_size (c2, g)).
Proof.
  intros E.
  assert (Hd : LSTMCell.dropout c1 = LSTMCell.dropout c2)
    by exact (f_equal LSTMCell.dropout E).
  assert (Ht : LSTMCell.training c1 = LSTMCell.training c2)
    by exact (f_equal LSTMCell.training E).
  assert (Hi : LSTMCell.input_size c1 = LSTMCell.input_size c2)
    by exact (f_equal LSTMCell.input_size E).
  assert (Hh : LSTMCell.hidden_size c1 = LSTMCell.hidden_size c2)
    by exact (f_equal LSTMCell.hidden_size E).
  assert (Hw : forall mi mh,
             CellSpec.with_masks mi mh c1 = CellSpec.with_masks mi mh c2).
  { intros mi mh.
    change (CellSpec.with_masks mi mh (erase_masks c1)
            = CellSpec.with_masks mi mh (erase_masks c2)).
    now rewrite E. }
  rewrite !set_dropout_masks_cases.
  rewrite <- Hd, <- Ht, <- Hi, <- Hh.
  destruct (truthy (LSTMCell.dropout c1));
    [| rewrite Hw; split; [reflexivity | intros _; reflexivity]].
  destruct (LSTMCell.training c1);
    [| rewrite Hw; split; [reflexivity | intros _; reflexivity]].
  destruct (bernoulli3 4 batch_size (LSTMCell.input_size c1)
              (1 - LSTMCell.dropout c1) g) as [[mi | e] g1];
    [| split; [reflexivity | discriminate]].
  destruct (bernoulli3 4 batch_size (LSTMCell.hidden_size c1)
              (1 - LSTMCell.dropout c1) g1) as [[mh | e] g2];
    [| split; [reflexivity | discriminate]].
  rewrite Hw. split; [reflexivity | intros _; reflexivity].
Qed.

Lemma set_all_of_weights max_batch_size post1 :
  forall post2 pre l1 l2 g,
    LSTM.lstm_cells l1 = pre ++ post1 ->
    LSTM.lstm_cells l2 = pre ++ post2 ->
    map erase_masks post1 = map erase_masks post2 ->
    with_cells [] l1 = with_cells [] l2 ->
    fst (LSTM.set_all_dropout_masks (length post1) (length pre)
           max_batch_size (l1, g))
    = fst (LSTM.set_all_dropout_masks (length post2) (length pre)
             max_batch_size (l2, g)) /\
    (fst (LSTM.set_all_dropout_masks (length post1) (length pre)
            max_batch_size (l1, g)) = Ok tt ->
     LSTM.set_all_dropout_masks (length post1) (length pre)
       max_batch_size (l1, g)
     = LSTM.set_all_dropout_masks (length post2) (length pre)
         max_batch_size (l2, g)).
Proof.
  induction post1 as [| c1 post1 IH];
    intros [| c2 post2] pre l1 l2 g H1 H2 Hm Hc; try discriminate Hm.
  - assert (El : l1 = l2).
    { destruct l1, l2. unfold with_cells in Hc. cbn in *.
      inversion Hc. subst. reflexivity. }
    subst l2. split; [reflexivity | intros _; reflexivity].
  - cbn [map] in Hm.
    assert (Ec : erase_masks c1 = erase_masks c2)
      by exact (f_equal (hd (erase_masks c1)) Hm).
    assert (Hrest : map erase_masks post1 = map erase_masks post2)
      by exact (f_equal (@tl _) Hm).
    cbn [LSTM.set_all_dropout_masks length]. unfold bind.
    assert (Hk1 : nth_error (LSTM.lstm_cells l1) (length pre) = Some c1).
    { rewrite H1, nth_error_app2, Nat.sub_diag by lia. reflexivity. }
    assert (Hk2 : nth_error (LSTM.lstm_cells l2) (length pre) = Some c2).
    { rewrite H2, nth_error_app2, Nat.sub_diag by lia. reflexivity. }
    unfold LSTM.on_cell. cbn [fst snd]. rewrite Hk1, Hk2.
    destruct (refresh_of_weights c1 c2 g max_batch_size Ec) as [Hf Hs].
    destruct (LSTMCell.set_dropout_masks max_batch_size (c1, g))
      as [[[] | e] [c1' g1]].
    + rewrite <- (Hs eq_refl). cbv beta iota.
      specialize (IH post2 (pre ++ [c1'])
                    (LSTM.set_cell (length pre) c1' l1)
                    (LSTM.set_cell (length pre) c1' l2) g1).
      rewrite length_app in IH. cbn [length] in IH.
      apply IH.
      * rewrite (set_cell_cells l1 pre c1 post1 c1' H1).
        now rewrite <- app_assoc.
      * rewrite (set_cell_cells l2 pre c2 post2 c1' H2).
        now rewrite <- app_assoc.
      * exact Hrest.
      * exact Hc.
    + cbn [fst] in Hf.
      destruct (LSTMCell.set_dropout_masks max_batch_size (c2, g))
        as [r2 [c2' g2]].
      cbn [fst] in Hf. subst r2. split; [reflexivity | discriminate].
Qed.

(** X15. The masks that earlier calls left in the cells have no part in a
    call of [forward]: on two layers with the same weights and
    configuration, from the same state of the random generator, the call
    has the same outcome, in training mode as in inference mode, and when
    it returns it leaves the same layer and the same state of the
    generator. *)
Theorem forward_ignores_stale_masks (l1 l2 : LSTM.t) g input hidden_state :
  weight_state l1 = weight_state l2 ->
  fst (LSTM.forward __debug__ input hidden_state (l1, g))
  = fst (LSTM.forward __debug__ input hidden_state (l2, g)) /\
  ((exists r, fst (LSTM.forward __debug__ input hidden_state (l1, g)) = Ok r) ->
   snd (LSTM.forward __debug__ input hidden_state (l1, g))
   = snd (LSTM.forward __debug__ input hidden_state (l2, g))).
Proof.
  intros Hw. destruct input as [p | x];
    [| split; [reflexivity | intros [r Hr]; discriminate Hr]].
  assert (Hcells : map erase_masks (LSTM.lstm_cells l1)
                   = map erase_masks (LSTM.lstm_cells l2))
    by (unfold weight_state, with_cells in Hw; now inversion Hw).
  assert (Hc : with_cells [] l1 = with_cells [] l2).
  { unfold weight_state, with_cells in *. inversion Hw. reflexivity. }
  unfold LSTM.forward, bind, lift, LSTM.self, py_index.
  cbn [fst snd].
  destruct (nth_error (LSTM.batch_sizes p) 0) as [max_batch_size |];
    [| split; [reflexivity | intros [r Hr]; discriminate Hr]].
  destruct (set_all_of_weights max_batch_size (LSTM.lstm_cells l1)
              (LSTM.lstm_cells l2) [] l1 l2 g eq_refl eq_refl Hcells Hc)
    as [Hf Hs].
  cbn [length] in Hf, Hs.
  destruct (LSTM.set_all_dropout_masks (length (LSTM.lstm_cells l1)) 0
              max_batch_size (l1, g)) as [[[] | e] [l1' g1]].
  - rewrite <- (Hs eq_refl). split; [reflexivity | intros _; reflexivity].
  - cbn [fst] in Hf.
    destruct (LSTM.set_all_dropout_masks (length (LSTM.lstm_cells l2)) 0
                max_batch_size (l2, g)) as [r2 [l2' g2]].
    cbn [fst] in Hf. subst r2. cbn [fst].
    split; [reflexivity | intros [r Hr]; discriminate Hr].
Qed.

End StaleMasks.

(** X15 on a layer just constructed and the layer that a call on another
    batch has left, in training mode with a dropout probability of 0.5. *)
Lemma forward_ignores_stale_masks_witness :
  let used :=
    fst (snd (LSTM.forward true (LSTM.Packed Examples.packed3) None
                (Examples.bi_layer, 11%N))) in
  fst (LSTM.forward true (LSTM.Packed Examples.packed3) None
         (Examples.bi_layer, 3%N))
  = fst (LSTM.forward true (LSTM.Packed Examples.packed3) None (used, 3%N)) /\
  ((exists r,
      fst (LSTM.forward true (LSTM.Packed Examples.packed3) None
             (Examples.bi_layer, 3%N)) = Ok r) ->
   snd (LSTM.forward true (LSTM.Packed Examples.packed3) None
          (Examples.bi_layer, 3%N))
   = snd (LSTM.forward true (LSTM.Packed Examples.packed3) None (used, 3%N))).
Proof.
  cbv zeta.
  apply (@forward_ignores_stale_masks Symbolic.torch true Examples.bi_layer
           (fst (snd (LSTM.forward true (LSTM.Packed Examples.packed3) None
                        (Examples.bi_layer, 11%N))))
           3%N (LSTM.Packed Examples.packed3) None).
  vm_compute. reflexivity.
Defined.
